(** * Date tasks (src/04-date-tasks.js): a shallow embedding and its properties

    The module under study exports five functions over JavaScript [Date]
    objects: two parsers, a leap-year test, a time-span formatter and the
    clock-hands angle.  They are embedded here as Rocq functions over a model
    of the parts of ECMAScript they rely on:

    - a Number that holds an integer (time values, calendar fields, the
      arithmetic of the formatter) is [number]: [NaN] or an integer, with
      the binary64 rounding of a result written out where it can occur;
    - the degrees and radians of the clock angle are binary64 values
      (Rocq's primitive [float], which is IEEE 754 binary64 as is a
      JavaScript Number);
    - a call that may throw returns a [completion];
    - what ECMAScript leaves to the host ([Date.parse] beyond the ISO format,
      the local time zone) is a [Platform]. *)

From Stdlib Require Import ZArith Lia List Bool Ascii String Floats Uint63.
Import ListNotations.

Local Open Scope Z_scope.

(** ** Numbers with an integer value *)

(** A JavaScript Number whose value is an integer, or NaN.  The infinities
    and the sign of zero do not arise in the functions below. *)
Inductive number : Type :=
| NaN : number
| Num (z : Z) : number.

(** Round-to-nearest, ties-to-even, of an integer to a 53-bit significand:
    the binary64 value of the exact result of an integer operation. *)
Definition round_binary64 (x : Z) : Z :=
  let a := Z.abs x in
  let e := Z.log2 a - 52 in
  if e <=? 0 then x
  else
    let q := a / 2 ^ e in
    let r := a mod 2 ^ e in
    let half := 2 ^ (e - 1) in
    let q' := if r <? half then q
              else if half <? r then q + 1
              else if Z.even q then q else q + 1 in
    Z.sgn x * (q' * 2 ^ e).

Module Number.

(** [a - b] *)
Definition subtract (a b : number) : number :=
  match a, b with
  | Num x, Num y => Num (round_binary64 (x - y))
  | _, _ => NaN
  end.

(** [a * b] *)
Definition multiply (a b : number) : number :=
  match a, b with
  | Num x, Num y => Num (round_binary64 (x * y))
  | _, _ => NaN
  end.

(** [a % b]: the remainder takes the sign of the dividend (truncating
    division); a zero divisor gives NaN. *)
Definition remainder (a b : number) : number :=
  match a, b with
  | Num x, Num y => if y =? 0 then NaN else Num (Z.rem x y)
  | _, _ => NaN
  end.

(** [a === b] on Numbers: NaN is equal to nothing. *)
Definition equal (a b : number) : bool :=
  match a, b with
  | Num x, Num y => x =? y
  | _, _ => false
  end.

End Number.

Declare Scope js_scope.
Delimit Scope js_scope with js.
Notation "a === b" := (Number.equal a b) (at level 70, no associativity) : js_scope.

(** [Math.abs] *)
Definition Math_abs (a : number) : number :=
  match a with
  | Num x => Num (Z.abs x)
  | NaN => NaN
  end.

(** [Math.floor(a / b)]: the quotient is not an integer, its floor is.  For
    the dividends (at most 8.64e15) and divisors (3600000, 60000, 1000) of
    the formatter the binary64 quotient is rounded by less than its distance
    to the next integer (half an ulp of a quotient below 2^32 is 2^-22, less
    than 1/3600000), so its floor is the floor of the exact quotient;
    [Math_floor_quotient_binary64] checks it on binary64 where the margin is
    smallest. *)
Definition Math_floor_quotient (a b : number) : number :=
  match a, b with
  | Num x, Num y => if y =? 0 then NaN else Num (x / y)
  | _, _ => NaN
  end.

(** [Math.floor] of a Number that holds an integer. *)
Definition Math_floor (a : number) : number := a.

(** ** Numbers and strings *)

Definition digit_char (d : Z) : ascii := ascii_of_N (Z.to_N (48 + d)).

Definition digit_value (c : ascii) : option Z :=
  let n := Z.of_N (N_of_ascii c) in
  if (48 <=? n) && (n <=? 57) then Some (n - 48) else None.

(** The decimal digits of [n >= 0] in front of [rest], most significant
    first; [fuel] bounds the number of digits. *)
Fixpoint digits (fuel : nat) (n : Z) (rest : string) : string :=
  match fuel with
  | O => rest
  | S fuel' =>
      let rest' := String (digit_char (n mod 10)) rest in
      if n <? 10 then rest' else digits fuel' (n / 10) rest'
  end.

Definition decimal (n : Z) : string :=
  digits (S (Z.to_nat (Z.log2 n))) n EmptyString.

(** [Number::toString] in radix 10, for an integer below 1e21 in magnitude
    (larger ones print with an exponent). *)
Definition Number_toString (a : number) : string :=
  match a with
  | NaN => "NaN"%string
  | Num z => if z <? 0 then String "-"%char (decimal (- z)) else decimal z
  end.

Fixpoint decimal_value (s : string) (acc : Z) : option Z :=
  match s with
  | EmptyString => Some acc
  | String c s' =>
      match digit_value c with
      | Some d => decimal_value s' (10 * acc + d)
      | None => None
      end
  end.

(** [StringToNumber] on the strings the formatter builds: a string of
    decimal digits is its value (the empty string is 0), and text that is no
    numeric literal, such as "NaN", is NaN.  The other numeric literals of
    the language (white space, signs, fractions, exponents, other radices,
    "Infinity") are not built by the module and are outside this model. *)
Definition StringToNumber (s : string) : number :=
  match decimal_value s 0 with
  | Some v => Num (round_binary64 v)
  | None => NaN
  end.

(** ** Binary64 values *)

(** [Math.PI] *)
Definition Math_PI : float := 0x1.921fb54442d18p+1%float.

(** The binary64 value of a Number that holds an integer (exact below 2^53). *)
Definition binary64 (a : number) : float :=
  match a with
  | NaN => PrimFloat.nan
  | Num z =>
      if z <? 0 then PrimFloat.opp (PrimFloat.of_uint63 (Uint63.of_Z (- z)))
      else PrimFloat.of_uint63 (Uint63.of_Z z)
  end.

(** ** Time values and their calendar fields (ECMAScript, Date objects) *)

Definition msPerSecond : Z := 1000.
Definition msPerMinute : Z := 60000.
Definition msPerHour : Z := 3600000.
Definition msPerDay : Z := 86400000.
Definition HoursPerDay : Z := 24.
Definition MinutesPerHour : Z := 60.

(** The largest magnitude of a time value: 8.64e15 ms. *)
Definition maxTimeValue : Z := 8640000000000000.

Definition Day (t : Z) : Z := t / msPerDay.

Definition DayFromYear (y : Z) : Z :=
  365 * (y - 1970) + (y - 1969) / 4 - (y - 1901) / 100 + (y - 1601) / 400.

Definition TimeFromYear (y : Z) : Z := msPerDay * DayFromYear y.

(** The largest year [y] with [TimeFromYear y <= t]: the mean year of 365.2425
    days gives an estimate that is off by at most one. *)
Definition YearFromTime (t : Z) : Z :=
  let d := Day t in
  let y0 := 1970 + 400 * d / 146097 in
  if DayFromYear (y0 + 1) <=? d then y0 + 1
  else if DayFromYear y0 <=? d then y0
  else y0 - 1.

Definition HourFromTime (t : Z) : Z := (t / msPerHour) mod HoursPerDay.
Definition MinFromTime (t : Z) : Z := (t / msPerMinute) mod MinutesPerHour.

(** [TimeClip]: a time value out of range is NaN. *)
Definition TimeClip (time : number) : number :=
  match time with
  | NaN => NaN
  | Num t => if maxTimeValue <? Z.abs t then NaN else Num t
  end.

(** [Date.UTC] and what it is made of. *)
Definition DaysInYear (y : Z) : Z :=
  if negb (y mod 4 =? 0) then 365
  else if negb (y mod 100 =? 0) then 366
  else if negb (y mod 400 =? 0) then 365
  else 366.

Definition days_before_month (leap : bool) (mn : Z) : Z :=
  nth (Z.to_nat mn) [0; 31; 59; 90; 120; 151; 181; 212; 243; 273; 304; 334] 0
  + (if leap && (2 <=? mn) then 1 else 0).

Definition MakeDay (year month date : Z) : Z :=
  let ym := year + month / 12 in
  let mn := month mod 12 in
  DayFromYear ym + days_before_month (DaysInYear ym =? 366) mn + date - 1.

Definition MakeTime (hour min sec ms : Z) : Z :=
  hour * msPerHour + min * msPerMinute + sec * msPerSecond + ms.

Definition MakeDate (day time : Z) : Z := day * msPerDay + time.

Definition Date_UTC (year month date hours minutes seconds ms : Z) : number :=
  let yr := if (0 <=? year) && (year <=? 99) then 1900 + year else year in
  TimeClip (Num (MakeDate (MakeDay yr month date) (MakeTime hours minutes seconds ms))).

(** ** Date objects, values and completions *)

(** A Date object: its [[DateValue]] slot. *)
Record Date : Type := mkDate { DateValue : number }.

Definition Invalid_Date : Date := mkDate NaN.

(** A calendar instant: a Date whose time value is a number in range. *)
Definition instant (d : Date) (t : Z) : Prop :=
  DateValue d = Num t /\ Z.abs t <= maxTimeValue.

(** The values the functions are called with. *)
Inductive value : Type :=
| VNumber (n : number)
| VString (s : string)
| VDate (d : Date)
| VSymbol.

Inductive error : Type := TypeError.

Inductive completion (A : Type) : Type :=
| Normal (a : A)
| Throw (e : error).
Arguments Normal {A} a.
Arguments Throw {A} e.

Definition bind {A B : Type} (c : completion A) (k : A -> completion B) : completion B :=
  match c with
  | Normal a => k a
  | Throw e => Throw e
  end.

Notation "x <- c ;; k" := (bind c (fun x => k))
  (at level 61, c at next level, right associativity) : js_scope.

(** What the host provides. *)
Class Platform : Type := {
  (** [Date.parse]: the time value a string denotes, NaN when the string is
      not recognised. *)
  Date_parse : string -> number;
  (** The offset of local time from UTC, in ms, at the UTC time [t]. *)
  LocalTZA : Z -> Z
}.

Local Open Scope js_scope.

Section DateTasks.

Context `{P : Platform}.

(** [new Date(v)]: a Date is copied, a string is parsed, anything else is
    converted to a Number, which throws for a Symbol. *)
Definition Date_construct (v : value) : completion Date :=
  match v with
  | VDate d => Normal (mkDate (TimeClip (DateValue d)))
  | VString s => Normal (mkDate (TimeClip (Date_parse s)))
  | VNumber n => Normal (mkDate (TimeClip n))
  | VSymbol => Throw TypeError
  end.

Definition LocalTime (t : Z) : Z := t + LocalTZA t.

(** [d.getFullYear()] *)
Definition getFullYear (d : Date) : number :=
  match DateValue d with
  | NaN => NaN
  | Num t => Num (YearFromTime (LocalTime t))
  end.

(** *** The functions of the module *)

(** Lines 22-24. *)
Definition parseDataFromRfc2822 (value : value) : completion Date :=
  Date_construct value.

(** Lines 37-39. *)
Definition parseDataFromIso8601 (value : value) : completion Date :=
  Date_construct value.

(** Lines 56-64; each of the three tests builds its own Date. *)
Definition isLeapYear (date : value) : completion bool :=
  d1 <- Date_construct date ;;
  if Number.remainder (getFullYear d1) (Num 100) === Num 0 then
    d2 <- Date_construct date ;;
    if Number.remainder (getFullYear d2) (Num 400) === Num 0 then Normal true
    else Normal false
  else
    d3 <- Date_construct date ;;
    Normal (Number.remainder (getFullYear d3) (Num 4) === Num 0).

(** [d.getUTCHours()], [d.getUTCMinutes()] and [d.valueOf()], which is
    what [ToNumber] gives for a Date. *)
Definition getUTCHours (d : Date) : number :=
  match DateValue d with
  | NaN => NaN
  | Num t => Num (HourFromTime t)
  end.

Definition getUTCMinutes (d : Date) : number :=
  match DateValue d with
  | NaN => NaN
  | Num t => Num (MinFromTime t)
  end.

Definition valueOf (d : Date) : number := DateValue d.

(** Lines 82-98.  The two arguments are Dates; [-] and [*] convert their
    operands to Numbers, a Date by [valueOf] and a string by
    [StringToNumber]. *)
Definition timeSpanToString (startDate endDate : Date) : completion string :=
  d <- Date_construct (VNumber (Number.subtract (valueOf endDate) (valueOf startDate))) ;;
  let dif := Math_abs (valueOf d) in
  let hours := Number_toString (Math_floor_quotient dif (Num 3600000)) in
  let hours := if (String.length hours <? 2)%nat then ("0" ++ hours)%string else hours in
  let minutes :=
    Number_toString
      (Math_abs
         (Math_floor_quotient
            (Number.subtract dif (Number.multiply (StringToNumber hours) (Num 3600000)))
            (Num 60000))) in
  let minutes := if (String.length minutes <? 2)%nat then ("0" ++ minutes)%string else minutes in
  let secs :=
    Number_toString
      (Math_abs
         (Math_floor_quotient
            (Number.subtract
               (Number.subtract dif (Number.multiply (StringToNumber hours) (Num 3600000)))
               (Number.multiply (StringToNumber minutes) (Num 60000)))
            (Num 1000))) in
  let secs := if (String.length secs <? 2)%nat then ("0" ++ secs)%string else secs in
  let mlsecs :=
    Number_toString
      (Math_abs
         (Math_floor
            (Number.subtract
               (Number.subtract
                  (Number.subtract dif (Number.multiply (StringToNumber hours) (Num 3600000)))
                  (Number.multiply (StringToNumber minutes) (Num 60000)))
               (Number.multiply (StringToNumber secs) (Num 1000))))) in
  let mlsecs := if (String.length mlsecs <? 2)%nat then ("00" ++ mlsecs)%string else mlsecs in
  let mlsecs := if (String.length mlsecs <? 3)%nat then ("0" ++ mlsecs)%string else mlsecs in
  Normal (hours ++ ":" ++ minutes ++ ":" ++ secs ++ "." ++ mlsecs)%string.

(** Lines 117-138, on binary64; [a > b] is [b <? a]. *)
Definition angleBetweenClockHands (date : value) : completion float :=
  newdate <- Date_construct date ;;
  let hours :=
    if (12 <? binary64 (getUTCHours newdate))%float
    then (binary64 (getUTCHours newdate) - 12)%float
    else binary64 (getUTCHours newdate) in
  let minutes := binary64 (getUTCMinutes newdate) in
  let shiftH := (minutes / 2)%float in
  let shiftM := (minutes * 6)%float in
  let hzH := (hours * 30)%float in
  let result :=
    if (hzH <? shiftM)%float then (shiftM - hzH - shiftH)%float
    else (hzH - shiftM + shiftH)%float in
  if (180 <? result)%float then Normal ((360 - result) * (Math_PI / 180))%float
  else if (result =? 180)%float then Normal Math_PI
  else Normal ((result * Math_PI) / 180)%float.

(** *** The stages of [timeSpanToString] and [angleBetweenClockHands]

    The let-bound expressions of the two functions, each as a function of
    the variables it reads; the lemmas [timeSpanToString_render] and
    [angleBetweenClockHands_result] below tie them to the functions. *)

Definition hours_field (dif : number) : string :=
  let hours := Number_toString (Math_floor_quotient dif (Num 3600000)) in
  if (String.length hours <? 2)%nat then ("0" ++ hours)%string else hours.

Definition minutes_field (dif : number) (hours : string) : string :=
  let minutes :=
    Number_toString
      (Math_abs
         (Math_floor_quotient
            (Number.subtract dif (Number.multiply (StringToNumber hours) (Num 3600000)))
            (Num 60000))) in
  if (String.length minutes <? 2)%nat then ("0" ++ minutes)%string else minutes.

Definition secs_field (dif : number) (hours minutes : string) : string :=
  let secs :=
    Number_toString
      (Math_abs
         (Math_floor_quotient
            (Number.subtract
               (Number.subtract dif (Number.multiply (StringToNumber hours) (Num 3600000)))
               (Number.multiply (StringToNumber minutes) (Num 60000)))
            (Num 1000))) in
  if (String.length secs <? 2)%nat then ("0" ++ secs)%string else secs.

Definition mlsecs_field (dif : number) (hours minutes secs : string) : string :=
  let mlsecs :=
    Number_toString
      (Math_abs
         (Math_floor
            (Number.subtract
               (Number.subtract
                  (Number.subtract dif (Number.multiply (StringToNumber hours) (Num 3600000)))
                  (Number.multiply (StringToNumber minutes) (Num 60000)))
               (Number.multiply (StringToNumber secs) (Num 1000))))) in
  let mlsecs := if (String.length mlsecs <? 2)%nat then ("00" ++ mlsecs)%string else mlsecs in
  if (String.length mlsecs <? 3)%nat then ("0" ++ mlsecs)%string else mlsecs.

(** The string returned for the absolute difference [dif]. *)
Definition render (dif : number) : string :=
  let hours := hours_field dif in
  let minutes := minutes_field dif hours in
  let secs := secs_field dif hours minutes in
  let mlsecs := mlsecs_field dif hours minutes secs in
  (hours ++ ":" ++ minutes ++ ":" ++ secs ++ "." ++ mlsecs)%string.

(** The variable [result] of [angleBetweenClockHands], in degrees, from the
    UTC hour and minute. *)
Definition raw_angle (utc_hours utc_minutes : number) : float :=
  let hours :=
    if (12 <? binary64 utc_hours)%float
    then (binary64 utc_hours - 12)%float
    else binary64 utc_hours in
  let minutes := binary64 utc_minutes in
  let shiftH := (minutes / 2)%float in
  let shiftM := (minutes * 6)%float in
  let hzH := (hours * 30)%float in
  if (hzH <? shiftM)%float then (shiftM - hzH - shiftH)%float
  else (hzH - shiftM + shiftH)%float.

Definition clock_result (date : value) : completion float :=
  newdate <- Date_construct date ;;
  Normal (raw_angle (getUTCHours newdate) (getUTCMinutes newdate)).

(** The value returned for [result]. *)
Definition radians_of_result (result : float) : float :=
  if (180 <? result)%float then ((360 - result) * (Math_PI / 180))%float
  else if (result =? 180)%float then Math_PI
  else ((result * Math_PI) / 180)%float.

End DateTasks.


(** ** The return statements of [angleBetweenClockHands]

    Lines 130-137 are three statements run in order on [result]: a return
    under the test [result > 180] (line 131), a return under the test
    [result === 180] (line 134) and a last return (line 137).  A statement
    carries the line of its [return]; [returned] runs the statements in
    order and gives the line of the one that returns with the value it
    returns. *)
Inductive statement : Type :=
| If_return (line : nat) (test : float -> bool) (value : float -> float)
| Return (line : nat) (value : float -> float).

Fixpoint returned (body : list statement) (result : float) : option (nat * float) :=
  match body with
  | [] => None
  | If_return line test value :: rest =>
      if test result then Some (line, value result) else returned rest result
  | Return line value :: _ => Some (line, value result)
  end.

Definition return_statements : list statement :=
  [ If_return 131 (fun result => (180 <? result)%float)
      (fun result => ((360 - result) * (Math_PI / 180))%float);
    If_return 134 (fun result => (result =? 180)%float)
      (fun _ => Math_PI);
    Return 137 (fun result => ((result * Math_PI) / 180)%float) ].

(** ** The rendering the specification describes *)

Fixpoint zeros (k : nat) : string :=
  match k with
  | O => EmptyString
  | S k' => String "0"%char (zeros k')
  end.

(** [s] with zeros in front up to [width] characters; a longer [s] is kept. *)
Definition zero_pad (width : nat) (s : string) : string :=
  (zeros (width - String.length s) ++ s)%string.

(** "HH:mm:ss.sss" for a span of [ms >= 0] milliseconds. *)
Definition HH_mm_ss_sss (ms : Z) : string :=
  (zero_pad 2 (decimal (ms / msPerHour)) ++ ":" ++
   zero_pad 2 (decimal (ms / msPerMinute mod 60)) ++ ":" ++
   zero_pad 2 (decimal (ms / msPerSecond mod 60)) ++ "." ++
   zero_pad 3 (decimal (ms mod 1000)))%string.

(** The Gregorian rule for the year [y]. *)
Definition Gregorian_leap (y : Z) : Prop :=
  (4 | y) /\ (~ (100 | y) \/ (400 | y)).


(** ** An example host

    Local time is UTC, and [Date.parse] reads the complete UTC form
    "YYYY-MM-DDTHH:mm:ssZ" of the date-time string format; it recognises
    nothing else.  The properties below hold for every host; this one gives
    them concrete instances. *)

Definition field (s : string) (pos len : nat) : option Z :=
  decimal_value (substring pos len s) 0.

Definition separators (s : string) : bool :=
  (String.eqb (substring 4 1 s) "-" && String.eqb (substring 7 1 s) "-" &&
   String.eqb (substring 10 1 s) "T" && String.eqb (substring 13 1 s) ":" &&
   String.eqb (substring 16 1 s) ":" && String.eqb (substring 19 1 s) "Z")%bool.

Definition parse_utc_date_time (s : string) : number :=
  if ((String.length s =? 20)%nat && separators s)%bool then
    match field s 0 4, field s 5 2, field s 8 2, field s 11 2, field s 14 2, field s 17 2 with
    | Some y, Some mo, Some d, Some h, Some mi, Some sec =>
        if ((1 <=? mo) && (mo <=? 12) && (1 <=? d) &&
            (d <=? days_before_month (DaysInYear y =? 366) mo
                   - days_before_month (DaysInYear y =? 366) (mo - 1)
                   + (if mo =? 12 then 365 else 0))
            && (h <=? 23) && (mi <=? 59) && (sec <=? 59))%bool
        then TimeClip (Num (MakeDate (MakeDay y (mo - 1) d) (MakeTime h mi sec 0)))
        else NaN
    | _, _, _, _, _, _ => NaN
    end
  else NaN.

Definition UTC_host : Platform :=
  {| Date_parse := parse_utc_date_time; LocalTZA := fun _ => 0 |}.

(** The same host one hour ahead of UTC. *)
Definition UTC_plus_1_host : Platform :=
  {| Date_parse := parse_utc_date_time; LocalTZA := fun _ => msPerHour |}.

(** The floor of a binary64 value, read off its significand and exponent. *)
Definition floor_binary64 (x : float) : number :=
  match Prim2SF x with
  | S754_zero _ => Num 0
  | S754_finite s m e =>
      let v := if 0 <=? e then Z.pos m * 2 ^ e else Z.pos m / 2 ^ (- e) in
      let exact := (0 <=? e) || (Z.pos m mod 2 ^ (- e) =? 0) in
      Num (if s then (if exact then - v else - v - 1) else v)
  | _ => NaN
  end.

(** Spans whose quotient by 3600000 ms is closest below an integer, at the
    top of the range of time values and at the powers of two below it. *)
Definition tight_spans : list Z :=
  flat_map (fun k => [3600000 * k - 1; 3600000 * k; 3600000 * k + 1])
    (map (fun i => 2400000000 - Z.of_nat i) (seq 0 500)
     ++ map (fun i => 2 ^ 31 + Z.of_nat i - 250) (seq 0 500)
     ++ map (fun i => 2 ^ 30 + Z.of_nat i - 250) (seq 0 500)).

(** The faces of the clock: every UTC hour and minute. *)
Definition clock_faces : list (Z * Z) :=
  flat_map (fun h => map (fun m => (Z.of_nat h, Z.of_nat m)) (seq 0 60)) (seq 0 24).

(** The hour on the 12-hour dial that [angleBetweenClockHands] works with. *)
Definition dial_hour (h : Z) : Z := if 12 <? h then h - 12 else h.

(** The check behind [angleBetweenClockHands_range]: at the hour [h] and
    minute [m] the value returned is at most pi, and it is below zero
    exactly when the minute hand is past the hour mark but not yet past the
    hour hand. *)
Definition range_check (h m : Z) : bool :=
  let a := radians_of_result (raw_angle (Num h) (Num m)) in
  ((a <=? Math_PI)%float
   && Bool.eqb (a <? 0)%float ((5 * dial_hour h <? m) && (11 * m <? 60 * dial_hour h))
   && ((a <? 0)%float || (0 <=? a)%float))%bool.

(** Twice the variable [result] of [angleBetweenClockHands] at the UTC hour
    [h] and minute [m], as an integer: the hour hand stands at
    [60 * h' + m] half degrees and the minute hand at [12 * m], [h'] the
    hour on the dial, and the branch taken is that of the test
    [shiftM > hzH]. *)
Definition twice_result (h m : Z) : Z :=
  if 5 * dial_hour h <? m then 11 * m - 60 * dial_hour h
  else 60 * dial_hour h - 11 * m.

(** The check behind [clock_result_exact]. *)
Definition exact_check (h m : Z) : bool :=
  PrimFloat.Leibniz.eqb
    (raw_angle (Num h) (Num m))
    (binary64 (Num (twice_result h m)) / 2)%float.

(** The check behind [angleBetweenClockHands_half_day]. *)
Definition half_day_check (h m : Z) : bool :=
  if (1 <=? h) && (h <? 12) then
    PrimFloat.Leibniz.eqb
      (radians_of_result (raw_angle (Num h) (Num m)))
      (radians_of_result (raw_angle (Num (h + 12)) (Num m)))
  else true.

(** Strings made of decimal digits. *)
Fixpoint digits_only (s : string) : bool :=
  match s with
  | EmptyString => true
  | String c s' =>
      match digit_value c with
      | Some _ => digits_only s'
      | None => false
      end
  end.

(** ** Facts about the number model *)

Lemma round_binary64_exact (x : Z) :
  Z.abs x < 2 ^ 53 -> round_binary64 x = x.
Proof.
  intros Hx. unfold round_binary64.
  destruct (Z.leb_spec (Z.log2 (Z.abs x) - 52) 0) as [_ | Hlog]; [reflexivity | exfalso].
  assert (0 < Z.abs x) as Hpos.
  { destruct (Z.eq_dec (Z.abs x) 0) as [E | E]; [rewrite E in Hlog; cbn in Hlog | ]; lia. }
  apply (Z.log2_lt_pow2 _ 53) in Hx; lia.
Qed.

Lemma round_binary64_opp (x : Z) :
  round_binary64 (- x) = - round_binary64 x.
Proof.
  unfold round_binary64. rewrite Z.abs_opp, Z.sgn_opp.
  destruct (Z.log2 (Z.abs x) - 52 <=? 0); [reflexivity | lia].
Qed.

Lemma maxTimeValue_small : maxTimeValue < 2 ^ 53.
Proof. reflexivity. Qed.

Lemma subtract_exact (x y : Z) :
  Z.abs (x - y) < 2 ^ 53 -> Number.subtract (Num x) (Num y) = Num (x - y).
Proof. intros H. cbn. now rewrite round_binary64_exact. Qed.

Lemma multiply_exact (x y : Z) :
  Z.abs (x * y) < 2 ^ 53 -> Number.multiply (Num x) (Num y) = Num (x * y).
Proof. intros H. cbn. now rewrite round_binary64_exact. Qed.

(** ** Facts about decimal strings *)

Lemma digit_value_digit_char (d : Z) :
  0 <= d < 10 -> digit_value (digit_char d) = Some d.
Proof.
  intros H.
  assert (d = 0 \/ d = 1 \/ d = 2 \/ d = 3 \/ d = 4 \/
          d = 5 \/ d = 6 \/ d = 7 \/ d = 8 \/ d = 9) as Hd by lia.
  repeat (destruct Hd as [-> | Hd]; [reflexivity | ]). now subst.
Qed.

Lemma digits_small (f : nat) (n : Z) (rest : string) :
  0 <= n < 10 -> digits (S f) n rest = String (digit_char n) rest.
Proof.
  intros H. cbn [digits]. rewrite Z.mod_small by lia.
  destruct (Z.ltb_spec n 10); [reflexivity | lia].
Qed.

Lemma digits_large (f : nat) (n : Z) (rest : string) :
  10 <= n ->
  digits (S f) n rest = digits f (n / 10) (String (digit_char (n mod 10)) rest).
Proof.
  intros H. cbn [digits]. destruct (Z.ltb_spec n 10); [lia | reflexivity].
Qed.

Lemma digits_length_ge (f : nat) (n : Z) (rest : string) :
  (String.length rest <= String.length (digits f n rest))%nat.
Proof.
  revert n rest. induction f as [| f IH]; intros n rest; cbn [digits]; [lia | ].
  destruct (n <? 10).
  - cbn. lia.
  - etransitivity; [ | apply IH]. cbn. lia.
Qed.

(** Reading back the digits written in front of [rest]. *)
Lemma decimal_value_digits (f : nat) :
  forall (n : Z) (rest : string),
    0 <= n < 2 ^ Z.of_nat f ->
    exists k : Z, 0 <= k /\
      forall acc, decimal_value (digits f n rest) acc = decimal_value rest (acc * 10 ^ k + n).
Proof.
  induction f as [| f IH]; intros n rest Hn.
  - exists 0. split; [lia | ]. intros acc. cbn in *. f_equal. lia.
  - destruct (Z.lt_ge_cases n 10) as [Hlt | Hge].
    + exists 1. split; [lia | ]. intros acc.
      rewrite digits_small by lia. cbn [decimal_value].
      rewrite digit_value_digit_char by lia. f_equal. lia.
    + rewrite digits_large by lia.
      rewrite Nat2Z.inj_succ, Z.pow_succ_r in Hn by lia.
      destruct (IH (n / 10) (String (digit_char (n mod 10)) rest)) as (k & Hk & Hrec).
      { split; [apply Z.div_pos; lia | apply Z.div_lt_upper_bound; lia]. }
      exists (k + 1). split; [lia | ]. intros acc.
      rewrite Hrec. cbn [decimal_value].
      rewrite digit_value_digit_char by (apply Z.mod_pos_bound; lia).
      f_equal. rewrite Z.pow_add_r by lia.
      pose proof (Z.div_mod n 10 ltac:(lia)). lia.
Qed.

Lemma decimal_fuel (n : Z) :
  0 <= n -> n < 2 ^ Z.of_nat (S (Z.to_nat (Z.log2 n))).
Proof.
  intros H. rewrite Nat2Z.inj_succ, Z2Nat.id by apply Z.log2_nonneg.
  destruct (Z.eq_dec n 0) as [-> | Hn]; [reflexivity | ].
  apply Z.log2_spec. lia.
Qed.

Lemma decimal_value_decimal (n : Z) :
  0 <= n -> decimal_value (decimal n) 0 = Some n.
Proof.
  intros H. unfold decimal.
  destruct (decimal_value_digits _ n EmptyString (conj H (decimal_fuel n H))) as (k & _ & Hk).
  rewrite Hk. reflexivity.
Qed.

Lemma decimal_value_zeros (k : nat) (s : string) :
  decimal_value (zeros k ++ s) 0 = decimal_value s 0.
Proof. induction k as [| k IH]; [reflexivity | exact IH]. Qed.

Lemma StringToNumber_zero_pad (w : nat) (n : Z) :
  0 <= n < 2 ^ 53 -> StringToNumber (zero_pad w (decimal n)) = Num n.
Proof.
  intros H. unfold StringToNumber, zero_pad.
  rewrite decimal_value_zeros, decimal_value_decimal by lia.
  rewrite round_binary64_exact; [reflexivity | lia].
Qed.

Lemma length_append (s1 s2 : string) :
  String.length (s1 ++ s2) = (String.length s1 + String.length s2)%nat.
Proof. induction s1 as [| c s1 IH]; cbn; [reflexivity | now rewrite IH]. Qed.

Lemma length_zeros (k : nat) : String.length (zeros k) = k.
Proof. induction k as [| k IH]; cbn; [reflexivity | now rewrite IH]. Qed.

Lemma zero_pad_length (w : nat) (s : string) :
  String.length (zero_pad w s) = Nat.max w (String.length s).
Proof. unfold zero_pad. rewrite length_append, length_zeros. lia. Qed.

Lemma log2_fuel (n k : Z) :
  0 <= k -> 2 ^ k <= n -> (Z.to_nat k <= Z.to_nat (Z.log2 n))%nat.
Proof.
  intros Hk Hn. apply Z2Nat.inj_le; [lia | apply Z.log2_nonneg | ].
  rewrite <- (Z.log2_pow2 k) by lia. now apply Z.log2_le_mono.
Qed.

Lemma decimal_length_pos (n : Z) : (1 <= String.length (decimal n))%nat.
Proof.
  unfold decimal. cbn [digits]. destruct (n <? 10); [cbn; lia | ].
  etransitivity; [ | apply digits_length_ge]. cbn. lia.
Qed.

Lemma decimal_length_1 (n : Z) :
  0 <= n < 10 -> String.length (decimal n) = 1%nat.
Proof. intros H. unfold decimal. now rewrite digits_small. Qed.

Lemma decimal_length_2 (n : Z) :
  10 <= n < 100 -> String.length (decimal n) = 2%nat.
Proof.
  intros H. unfold decimal.
  pose proof (log2_fuel n 3 ltac:(lia) ltac:(cbn; lia)) as Hf.
  destruct (Z.to_nat (Z.log2 n)) as [| f]; [cbn in Hf; lia | ].
  rewrite digits_large by lia.
  rewrite digits_small; [reflexivity | ].
  split; [apply Z.div_pos; lia | apply Z.div_lt_upper_bound; lia].
Qed.

Lemma decimal_length_ge3 (n : Z) :
  100 <= n -> (3 <= String.length (decimal n))%nat.
Proof.
  intros H. unfold decimal.
  pose proof (log2_fuel n 6 ltac:(lia) ltac:(cbn; lia)) as Hf.
  destruct (Z.to_nat (Z.log2 n)) as [| [| f]]; [cbn in Hf; lia | cbn in Hf; lia | ].
  rewrite digits_large by lia.
  rewrite digits_large by (apply Z.div_le_lower_bound; lia).
  cbn [digits]. destruct (n / 10 / 10 <? 10); [cbn; lia | ].
  etransitivity; [ | apply digits_length_ge]. cbn. lia.
Qed.

Lemma decimal_length_3 (n : Z) :
  100 <= n < 1000 -> String.length (decimal n) = 3%nat.
Proof.
  intros H. unfold decimal.
  pose proof (log2_fuel n 6 ltac:(lia) ltac:(cbn; lia)) as Hf.
  destruct (Z.to_nat (Z.log2 n)) as [| [| f]]; [cbn in Hf; lia | cbn in Hf; lia | ].
  rewrite digits_large by lia.
  rewrite digits_large by (apply Z.div_le_lower_bound; lia).
  rewrite digits_small; [reflexivity | ].
  split; [repeat apply Z.div_pos; lia | ].
  apply Z.div_lt_upper_bound; [lia | ]. apply Z.div_lt_upper_bound; lia.
Qed.

(** The padding steps of the formatter, on a string that is not empty. *)
Lemma pad2_code (s : string) :
  (1 <= String.length s)%nat ->
  (if (String.length s <? 2)%nat then ("0" ++ s)%string else s) = zero_pad 2 s.
Proof.
  intros H. unfold zero_pad.
  destruct (Nat.ltb_spec (String.length s) 2) as [Hl | Hl].
  - replace (2 - String.length s)%nat with 1%nat by lia. reflexivity.
  - replace (2 - String.length s)%nat with 0%nat by lia. reflexivity.
Qed.

Lemma pad3_code (s : string) :
  (1 <= String.length s)%nat ->
  (let s' := if (String.length s <? 2)%nat then ("00" ++ s)%string else s in
   if (String.length s' <? 3)%nat then ("0" ++ s')%string else s') = zero_pad 3 s.
Proof.
  intros H. unfold zero_pad. cbv zeta.
  destruct (Nat.ltb_spec (String.length s) 2) as [Hl | Hl].
  - replace (3 - String.length s)%nat with 2%nat by lia.
    rewrite length_append. cbn [String.length Nat.add].
    destruct (Nat.ltb_spec (S (S (String.length s))) 3); [lia | reflexivity].
  - destruct (Nat.ltb_spec (String.length s) 3) as [Hl3 | Hl3].
    + replace (3 - String.length s)%nat with 1%nat by lia. reflexivity.
    + replace (3 - String.length s)%nat with 0%nat by lia. reflexivity.
Qed.

(** The fields of a span of [D] ms as the formatter computes them, by
    successive subtraction, are those of the positional reading. *)
Lemma fields_arith (D : Z) :
  0 <= D ->
  let h := D / 3600000 in
  let m := (D - h * 3600000) / 60000 in
  let s := (D - h * 3600000 - m * 60000) / 1000 in
  0 <= h /\ h * 3600000 <= D /\
  m = D / 60000 mod 60 /\ 0 <= m < 60 /\
  s = D / 1000 mod 60 /\ 0 <= s < 60 /\
  D - h * 3600000 - m * 60000 - s * 1000 = D mod 1000 /\
  0 <= D mod 1000 < 1000.
Proof.
  intros HD h m s. subst h m s.
  Z.div_mod_to_equations. lia.
Qed.

(** [Math_floor_quotient] against binary64 where the rounding of the
    quotient comes closest to crossing an integer. *)
Lemma Math_floor_quotient_binary64 :
  forallb
    (fun D =>
       match floor_binary64 (binary64 (Num D) / 3600000)%float,
             Math_floor_quotient (Num D) (Num 3600000) with
       | Num a, Num b => a =? b
       | _, _ => false
       end)
    tight_spans = true.
Proof. vm_compute. reflexivity. Qed.

(** ** The calendar year of a time value *)

Lemma DayFromYear_step (y : Z) :
  DayFromYear y + 365 <= DayFromYear (y + 1) <= DayFromYear y + 366.
Proof. unfold DayFromYear. Z.div_mod_to_equations. lia. Qed.

(** [YearFromTime t] is the year whose span of days holds the day of [t]. *)
Lemma YearFromTime_spec (t : Z) :
  TimeFromYear (YearFromTime t) <= t < TimeFromYear (YearFromTime t + 1).
Proof.
  assert (forall y, DayFromYear y <= Day t < DayFromYear (y + 1) ->
                    TimeFromYear y <= t < TimeFromYear (y + 1)) as Hday.
  { intros y. unfold TimeFromYear, Day, msPerDay. Z.div_mod_to_equations. lia. }
  apply Hday. unfold YearFromTime. cbv zeta.
  set (d := Day t). set (y0 := 1970 + 400 * d / 146097).
  assert (DayFromYear (y0 - 1) <= d < DayFromYear (y0 + 2)) as Hest.
  { subst y0. unfold DayFromYear. Z.div_mod_to_equations. lia. }
  replace (y0 + 2) with (y0 + 1 + 1) in Hest by lia.
  destruct (Z.leb_spec (DayFromYear (y0 + 1)) d).
  - lia.
  - destruct (Z.leb_spec (DayFromYear y0) d).
    + lia.
    + replace (y0 - 1 + 1) with y0 by lia. lia.
Qed.

(** ** Constructing a Date from an instant *)

Lemma TimeClip_in_range (t : Z) :
  Z.abs t <= maxTimeValue -> TimeClip (Num t) = Num t.
Proof.
  intros H. cbn. destruct (Z.ltb_spec maxTimeValue (Z.abs t)); [lia | reflexivity].
Qed.

Lemma TimeClip_out_of_range (t : Z) :
  maxTimeValue < Z.abs t -> TimeClip (Num t) = NaN.
Proof.
  intros H. cbn. destruct (Z.ltb_spec maxTimeValue (Z.abs t)); [reflexivity | lia].
Qed.

Ltac in_range :=
  pose proof maxTimeValue_small; unfold maxTimeValue in *; lia.

Section Facts.

Context `{P : Platform}.

Lemma Date_construct_instant (d : Date) (t : Z) :
  instant d t -> Date_construct (VDate d) = Normal (mkDate (Num t)).
Proof.
  intros [Hd Ht]. unfold Date_construct. now rewrite Hd, TimeClip_in_range.
Qed.

Lemma Date_construct_millis (t : Z) :
  Z.abs t <= maxTimeValue -> Date_construct (VNumber (Num t)) = Normal (mkDate (Num t)).
Proof. intros Ht. unfold Date_construct. now rewrite TimeClip_in_range. Qed.

(** *** isLeapYear *)

Lemma remainder_is_zero (y k : Z) :
  k <> 0 -> (Number.remainder (Num y) (Num k) === Num 0) = true <-> (k | y).
Proof.
  intros Hk. cbn. destruct (Z.eqb_spec k 0) as [| _]; [contradiction | ].
  cbn. rewrite Z.eqb_eq. now apply Z.rem_divide.
Qed.

Lemma remainder_of_NaN (k : number) :
  (Number.remainder NaN k === Num 0) = false.
Proof. reflexivity. Qed.

(** The value of [isLeapYear] on a Date whose year is the number [y]. *)
Lemma isLeapYear_of_year (d : Date) (t y : Z) :
  instant d t -> getFullYear d = Num y ->
  isLeapYear (VDate d) =
  Normal (if Z.rem y 100 =? 0 then Z.rem y 400 =? 0 else Z.rem y 4 =? 0).
Proof.
  intros Hd Hy. unfold isLeapYear.
  rewrite (Date_construct_instant d t Hd). cbn [bind].
  assert (getFullYear (mkDate (Num t)) = Num y) as ->.
  { destruct Hd as [Hv _]. unfold getFullYear in *. now rewrite Hv in Hy. }
  cbn. now destruct (Z.rem y 100 =? 0), (Z.rem y 400 =? 0).
Qed.

Lemma Gregorian_leap_test (y : Z) :
  (if Z.rem y 100 =? 0 then Z.rem y 400 =? 0 else Z.rem y 4 =? 0) = true <->
  Gregorian_leap y.
Proof.
  unfold Gregorian_leap.
  rewrite <- (Z.rem_divide y 4), <- (Z.rem_divide y 100), <- (Z.rem_divide y 400) by lia.
  destruct (Z.eqb_spec (Z.rem y 100) 0) as [H100 | H100];
    rewrite Z.eqb_eq.
  - split.
    + intros H400. split; [ | now right].
      pose proof (Z.quot_rem' y 400). pose proof (Z.quot_rem' y 4).
      pose proof (Z.rem_bound_abs y 4 ltac:(lia)).
      assert (Z.rem y 4 = Z.rem (400 * Z.quot y 400) 4) as -> by (f_equal; lia).
      replace (400 * Z.quot y 400) with (Z.quot y 400 * 100 * 4) by lia.
      apply Z.rem_mul; lia.
    + intros [_ [Hn | H400]]; [contradiction | assumption].
  - split.
    + intros H4. split; [assumption | now left].
    + intros [H4 _]. assumption.
Qed.

End Facts.

(** ** The parsers *)

Section Parsers.

Context `{P : Platform}.

(** C4: for every input string both parsers complete normally, and on a
    string that [Date.parse] does not recognise, "not a date" among them,
    both return the invalid Date instead of throwing. *)
Theorem parsers_never_throw (s : string) :
  (exists d1 d2 : Date,
      parseDataFromRfc2822 (VString s) = Normal d1 /\
      parseDataFromIso8601 (VString s) = Normal d2) /\
  (Date_parse s = NaN ->
   parseDataFromRfc2822 (VString s) = Normal Invalid_Date /\
   parseDataFromIso8601 (VString s) = Normal Invalid_Date).
Proof.
  unfold parseDataFromRfc2822, parseDataFromIso8601, Date_construct.
  split; [eauto | ]. intros ->. split; reflexivity.
Qed.

(** C9: the two parsers return the same result on every input, whatever
    the host's [Date.parse] is; on a string each returns the Date of what
    [Date.parse] answers, so neither looks at the format it is named after. *)
Theorem parsers_extensionally_equal (v : value) :
  parseDataFromRfc2822 v = parseDataFromIso8601 v /\
  (forall s : string, v = VString s ->
     parseDataFromRfc2822 v = Normal (mkDate (TimeClip (Date_parse s))) /\
     parseDataFromIso8601 v = Normal (mkDate (TimeClip (Date_parse s)))).
Proof.
  split; [reflexivity | ].
  intros s ->. split; reflexivity.
Qed.

End Parsers.

(** On the example host "not a date" is not recognised and both parsers
    return the invalid Date. *)
Lemma parsers_never_throw_not_a_date :
  parseDataFromRfc2822 (P := UTC_host) (VString "not a date") = Normal Invalid_Date /\
  parseDataFromIso8601 (P := UTC_host) (VString "not a date") = Normal Invalid_Date.
Proof.
  destruct (parsers_never_throw (P := UTC_host) "not a date") as (_ & H).
  apply H. reflexivity.
Defined.

(** ** isLeapYear *)

Section LeapYear.

Context `{P : Platform}.

(** C2: on a calendar instant whose year is [y], [isLeapYear] returns true
    exactly when [y] satisfies the Gregorian rule, and false otherwise;
    so false for 1900, true for 2000, false for 2001, true for 2012 and
    false for 2015. *)
Theorem isLeapYear_Gregorian (d : Date) (t y : Z) :
  instant d t -> getFullYear d = Num y ->
  (isLeapYear (VDate d) = Normal true <-> Gregorian_leap y) /\
  (isLeapYear (VDate d) = Normal false <-> ~ Gregorian_leap y) /\
  (y = 1900 -> isLeapYear (VDate d) = Normal false) /\
  (y = 2000 -> isLeapYear (VDate d) = Normal true) /\
  (y = 2001 -> isLeapYear (VDate d) = Normal false) /\
  (y = 2012 -> isLeapYear (VDate d) = Normal true) /\
  (y = 2015 -> isLeapYear (VDate d) = Normal false).
Proof.
  intros Hd Hy. rewrite (isLeapYear_of_year d t y Hd Hy).
  pose proof (Gregorian_leap_test y) as Htest.
  destruct (if Z.rem y 100 =? 0 then Z.rem y 400 =? 0 else Z.rem y 4 =? 0) eqn:E.
  - assert (Gregorian_leap y) as Hyes by now apply Htest.
    split; [tauto | ]. split; [split; [discriminate | tauto] | ].
    repeat split; intros ->; solve [reflexivity | discriminate E].
  - assert (~ Gregorian_leap y) as Hno by (intros H; apply Htest in H; discriminate).
    split; [split; [discriminate | tauto] | ]. split; [tauto | ].
    repeat split; intros ->; solve [reflexivity | discriminate E].
Qed.

(** C10: on every Date [isLeapYear] completes normally, and on the invalid
    Date the year is NaN, each of the three remainder tests is false and
    the result is false. *)
Theorem isLeapYear_invalid_date (d : Date) :
  (exists b : bool, isLeapYear (VDate d) = Normal b) /\
  (DateValue d = NaN ->
   getFullYear d = NaN /\
   (Number.remainder (getFullYear d) (Num 100) === Num 0) = false /\
   (Number.remainder (getFullYear d) (Num 400) === Num 0) = false /\
   (Number.remainder (getFullYear d) (Num 4) === Num 0) = false /\
   isLeapYear (VDate d) = Normal false).
Proof.
  split.
  - unfold isLeapYear, Date_construct. cbn [bind].
    destruct (Number.remainder _ _ === _); [destruct (Number.remainder _ _ === _) | ]; eauto.
  - intros Hd. unfold isLeapYear, Date_construct, getFullYear.
    rewrite Hd. cbn. auto.
Qed.

End LeapYear.

(** 2000-02-01 on the example host: a leap year by the rule and by the code. *)
Lemma isLeapYear_Gregorian_2000 :
  isLeapYear (P := UTC_host) (VDate (mkDate (Date_UTC 2000 1 1 0 0 0 0))) = Normal true.
Proof.
  destruct (isLeapYear_Gregorian (P := UTC_host)
              (mkDate (Date_UTC 2000 1 1 0 0 0 0)) 949363200000 2000)
    as (_ & _ & _ & H2000 & _).
  - split; [reflexivity | vm_compute; discriminate].
  - reflexivity.
  - exact (H2000 eq_refl).
Defined.

(** The year [isLeapYear] tests is the year of local time: half an hour
    before the UTC year 2000 begins, a host one hour ahead of UTC is already
    in the leap year 2000, a host on UTC still in 1999. *)
Lemma isLeapYear_local_year :
  parse_utc_date_time "1999-12-31T23:30:00Z" = Num 946683000000 /\
  YearFromTime 946683000000 = 1999 /\
  getFullYear (P := UTC_plus_1_host) (mkDate (Num 946683000000)) = Num 2000 /\
  isLeapYear (P := UTC_plus_1_host) (VDate (mkDate (Num 946683000000))) = Normal true /\
  isLeapYear (P := UTC_host) (VDate (mkDate (Num 946683000000))) = Normal false.
Proof. repeat split; vm_compute; reflexivity. Qed.

(** The invalid Date on the example host. *)
Lemma isLeapYear_invalid_date_example :
  isLeapYear (P := UTC_host) (VDate Invalid_Date) = Normal false.
Proof.
  destruct (isLeapYear_invalid_date (P := UTC_host) Invalid_Date) as [_ H].
  apply H. reflexivity.
Defined.

(** ** timeSpanToString *)

Lemma Number_toString_nonneg (n : Z) :
  0 <= n -> Number_toString (Num n) = decimal n.
Proof.
  intros H. cbn. destruct (Z.ltb_spec n 0); [lia | reflexivity].
Qed.

Lemma hours_field_span (D : Z) :
  0 <= D -> hours_field (Num D) = zero_pad 2 (decimal (D / 3600000)).
Proof.
  intros HD. unfold hours_field. cbv zeta.
  change (Math_floor_quotient (Num D) (Num 3600000)) with (Num (D / 3600000)).
  rewrite Number_toString_nonneg by (apply Z.div_pos; lia).
  apply pad2_code, decimal_length_pos.
Qed.

(** A two-digit field: the floor of [x / c], padded. *)
Lemma two_digit_field (x c : Z) :
  0 <= x -> 0 < c ->
  (let f := Number_toString (Math_abs (Math_floor_quotient (Num x) (Num c))) in
   if (String.length f <? 2)%nat then ("0" ++ f)%string else f)
  = zero_pad 2 (decimal (x / c)).
Proof.
  intros Hx Hc. cbv zeta. unfold Math_floor_quotient.
  destruct (Z.eqb_spec c 0) as [| _]; [lia | ]. cbn [Math_abs].
  rewrite Z.abs_eq by (apply Z.div_pos; lia).
  rewrite Number_toString_nonneg by (apply Z.div_pos; lia).
  apply pad2_code, decimal_length_pos.
Qed.

(** On a span of [D] ms within the range of a time value the formatter
    returns the rendering of the specification. *)
Lemma render_span (D : Z) :
  0 <= D <= maxTimeValue -> render (Num D) = HH_mm_ss_sss D.
Proof.
  intros HD.
  destruct (fields_arith D ltac:(lia)) as (Hh & HhD & Hm & Hmb & Hs & Hsb & Hms & Hmsb).
  cbv zeta in *.
  set (h := D / 3600000) in *.
  set (m := (D - h * 3600000) / 60000) in *.
  set (s := (D - h * 3600000 - m * 60000) / 1000) in *.
  unfold render, HH_mm_ss_sss, msPerHour, msPerMinute, msPerSecond. cbv zeta.
  rewrite hours_field_span by lia. fold h.
  assert (minutes_field (Num D) (zero_pad 2 (decimal h)) = zero_pad 2 (decimal m)) as ->.
  { unfold minutes_field.
    rewrite StringToNumber_zero_pad by in_range.
    rewrite multiply_exact, subtract_exact by in_range.
    apply two_digit_field; lia. }
  assert (secs_field (Num D) (zero_pad 2 (decimal h)) (zero_pad 2 (decimal m))
          = zero_pad 2 (decimal s)) as ->.
  { unfold secs_field.
    rewrite !StringToNumber_zero_pad by in_range.
    rewrite !multiply_exact, !subtract_exact by in_range.
    apply two_digit_field; lia. }
  assert (mlsecs_field (Num D) (zero_pad 2 (decimal h)) (zero_pad 2 (decimal m))
            (zero_pad 2 (decimal s)) = zero_pad 3 (decimal (D mod 1000))) as ->.
  { unfold mlsecs_field.
    rewrite !StringToNumber_zero_pad by in_range.
    rewrite !multiply_exact, !subtract_exact by in_range.
    unfold Math_floor. cbn [Math_abs]. rewrite Hms.
    rewrite Z.abs_eq, Number_toString_nonneg by lia.
    apply pad3_code, decimal_length_pos. }
  now rewrite <- Hm, <- Hs.
Qed.

Lemma render_NaN : render NaN = "NaN:NaN:NaN.NaN"%string.
Proof. reflexivity. Qed.

(** The widths of the fields of the rendering. *)
Lemma field_width_2 (n : Z) :
  0 <= n < 100 -> String.length (zero_pad 2 (decimal n)) = 2%nat.
Proof.
  intros H. rewrite zero_pad_length.
  destruct (Z.lt_ge_cases n 10).
  - rewrite decimal_length_1 by lia. reflexivity.
  - rewrite decimal_length_2 by lia. reflexivity.
Qed.

Lemma field_width_3 (n : Z) :
  0 <= n < 1000 -> String.length (zero_pad 3 (decimal n)) = 3%nat.
Proof.
  intros H. rewrite zero_pad_length.
  destruct (Z.lt_ge_cases n 10); [rewrite decimal_length_1 by lia; reflexivity | ].
  destruct (Z.lt_ge_cases n 100); [rewrite decimal_length_2 by lia; reflexivity | ].
  rewrite decimal_length_3 by lia. reflexivity.
Qed.

Lemma zero_pad_wide (w : nat) (s : string) :
  (w <= String.length s)%nat -> zero_pad w s = s.
Proof.
  intros H. unfold zero_pad.
  replace (w - String.length s)%nat with 0%nat by lia. reflexivity.
Qed.

(** The absolute difference the formatter works on does not depend on the
    order of the two time values. *)
Lemma dif_symmetric (x y : number) :
  Math_abs (TimeClip (Number.subtract x y)) = Math_abs (TimeClip (Number.subtract y x)).
Proof.
  destruct x as [| x], y as [| y]; try reflexivity.
  unfold Number.subtract, TimeClip.
  replace (y - x) with (- (x - y)) by lia.
  rewrite round_binary64_opp, Z.abs_opp.
  destruct (maxTimeValue <? Z.abs (round_binary64 (x - y))); [reflexivity | ].
  cbn. now rewrite Z.abs_opp.
Qed.

Lemma dif_of_magnitude (x y x' y' : Z) :
  Z.abs (x - y) = Z.abs (x' - y') ->
  Math_abs (TimeClip (Number.subtract (Num x) (Num y)))
  = Math_abs (TimeClip (Number.subtract (Num x') (Num y'))).
Proof.
  intros H.
  assert (x - y = x' - y' \/ x - y = - (x' - y')) as [E | E] by lia.
  - unfold Number.subtract. now rewrite E.
  - rewrite (dif_symmetric (Num x') (Num y')).
    unfold Number.subtract. now replace (y' - x') with (x - y) by lia.
Qed.

Section TimeSpan.

Context `{P : Platform}.

Lemma timeSpanToString_render (startDate endDate : Date) :
  timeSpanToString startDate endDate =
  Normal (render (Math_abs (TimeClip (Number.subtract (valueOf endDate) (valueOf startDate))))).
Proof. reflexivity. Qed.

Lemma timeSpanToString_instants (startDate endDate : Date) (t1 t2 : Z) :
  instant startDate t1 -> instant endDate t2 ->
  Z.abs (t2 - t1) <= maxTimeValue ->
  timeSpanToString startDate endDate = Normal (HH_mm_ss_sss (Z.abs (t2 - t1))).
Proof.
  intros [Hs _] [He _] Hspan. rewrite timeSpanToString_render.
  unfold valueOf. rewrite Hs, He.
  rewrite subtract_exact by in_range.
  rewrite TimeClip_in_range by assumption. cbn [Math_abs].
  rewrite render_span by lia. reflexivity.
Qed.

End TimeSpan.

Section TimeSpanClaims.

Context `{P : Platform}.

(** X13: for every pair of instants whose absolute difference is at most
    8.64e15 ms, [timeSpanToString] returns that difference rendered as
    "HH:mm:ss.sss", hours, minutes and seconds padded with zeros to 2
    digits and milliseconds to 3; a span of 1 h gives "01:00:00.000",
    250 ms gives "00:00:00.250" and 5 h 20 min 10.453 s gives
    "05:20:10.453". *)
Theorem timeSpanToString_HH_mm_ss_sss (startDate endDate : Date) (t1 t2 : Z) :
  instant startDate t1 -> instant endDate t2 ->
  Z.abs (t2 - t1) <= maxTimeValue ->
  timeSpanToString startDate endDate = Normal (HH_mm_ss_sss (Z.abs (t2 - t1))) /\
  (Z.abs (t2 - t1) = 3600000 ->
   timeSpanToString startDate endDate = Normal "01:00:00.000"%string) /\
  (Z.abs (t2 - t1) = 250 ->
   timeSpanToString startDate endDate = Normal "00:00:00.250"%string) /\
  (Z.abs (t2 - t1) = 19210453 ->
   timeSpanToString startDate endDate = Normal "05:20:10.453"%string).
Proof.
  intros Hs He Hspan.
  rewrite (timeSpanToString_instants startDate endDate t1 t2 Hs He Hspan).
  repeat split; intros ->; reflexivity.
Qed.

(** C7: swapping the two Dates does not change the result, and two pairs
    of time values with the same absolute difference give the same
    string. *)
Theorem timeSpanToString_symmetric (a b : Date) :
  timeSpanToString a b = timeSpanToString b a /\
  (forall (a' b' : Date) (ta tb ta' tb' : Z),
      DateValue a = Num ta -> DateValue b = Num tb ->
      DateValue a' = Num ta' -> DateValue b' = Num tb' ->
      Z.abs (tb - ta) = Z.abs (tb' - ta') ->
      timeSpanToString a b = timeSpanToString a' b').
Proof.
  split.
  - rewrite !timeSpanToString_render. now rewrite dif_symmetric.
  - intros a' b' ta tb ta' tb' Ha Hb Ha' Hb' Habs.
    rewrite !timeSpanToString_render. unfold valueOf.
    rewrite Ha, Hb, Ha', Hb'. now rewrite (dif_of_magnitude tb ta tb' ta').
Qed.

(** X14: for every pair of instants whose absolute difference is at least
    100 hours and at most 8.64e15 ms, the hours field is the decimal
    numeral of the whole number of hours, more than 2 digits long and
    read back without loss, while the minutes, seconds and milliseconds
    fields are 2, 2 and 3 digits wide. *)
Theorem timeSpanToString_long_span (startDate endDate : Date) (t1 t2 : Z) :
  instant startDate t1 -> instant endDate t2 ->
  100 * msPerHour <= Z.abs (t2 - t1) <= maxTimeValue ->
  exists hh mm ss sss : string,
    timeSpanToString startDate endDate
    = Normal (hh ++ ":" ++ mm ++ ":" ++ ss ++ "." ++ sss)%string /\
    hh = decimal (Z.abs (t2 - t1) / msPerHour) /\
    StringToNumber hh = Num (Z.abs (t2 - t1) / msPerHour) /\
    (2 < String.length hh)%nat /\
    mm = zero_pad 2 (decimal (Z.abs (t2 - t1) / msPerMinute mod 60)) /\
    String.length mm = 2%nat /\
    ss = zero_pad 2 (decimal (Z.abs (t2 - t1) / msPerSecond mod 60)) /\
    String.length ss = 2%nat /\
    sss = zero_pad 3 (decimal (Z.abs (t2 - t1) mod 1000)) /\
    String.length sss = 3%nat.
Proof.
  intros Hs He [Hlong Hspan].
  rewrite (timeSpanToString_instants startDate endDate t1 t2 Hs He Hspan).
  set (D := Z.abs (t2 - t1)) in *. unfold msPerHour in Hlong.
  assert (100 <= D / msPerHour) as Hh
      by (unfold msPerHour; apply Z.div_le_lower_bound; lia).
  pose proof (decimal_length_ge3 _ Hh) as Hlen.
  exists (decimal (D / msPerHour)),
    (zero_pad 2 (decimal (D / msPerMinute mod 60))),
    (zero_pad 2 (decimal (D / msPerSecond mod 60))),
    (zero_pad 3 (decimal (D mod 1000))).
  split; [unfold HH_mm_ss_sss; rewrite (zero_pad_wide 2) by lia; reflexivity | ].
  split; [reflexivity | ].
  split.
  { rewrite <- (zero_pad_wide 2 (decimal (D / msPerHour))) by lia.
    apply StringToNumber_zero_pad. split; [lia | ].
    apply Z.le_lt_trans with D; [ | in_range].
    unfold msPerHour. apply Z.div_le_upper_bound; lia. }
  split; [lia | ].
  pose proof (Z.mod_pos_bound (D / msPerMinute) 60 ltac:(lia)).
  pose proof (Z.mod_pos_bound (D / msPerSecond) 60 ltac:(lia)).
  pose proof (Z.mod_pos_bound D 1000 ltac:(lia)).
  split; [reflexivity | ]. split; [apply field_width_2; lia | ].
  split; [reflexivity | ]. split; [apply field_width_2; lia | ].
  split; [reflexivity | ]. apply field_width_3; lia.
Qed.

End TimeSpanClaims.

(** One hour on the example host. *)
Lemma timeSpanToString_HH_mm_ss_sss_one_hour :
  timeSpanToString (P := UTC_host)
    (mkDate (Date_UTC 2000 1 1 10 0 0 0)) (mkDate (Date_UTC 2000 1 1 11 0 0 0))
  = Normal "01:00:00.000"%string.
Proof.
  destruct (timeSpanToString_HH_mm_ss_sss (P := UTC_host)
              (mkDate (Date_UTC 2000 1 1 10 0 0 0)) (mkDate (Date_UTC 2000 1 1 11 0 0 0))
              949399200000 949402800000) as (_ & H & _).
  - split; [reflexivity | vm_compute; discriminate].
  - split; [reflexivity | vm_compute; discriminate].
  - vm_compute; discriminate.
  - exact (H eq_refl).
Defined.

(** C3 fails on the code: for the instants -1 ms and 8.64e15 ms the span is
    8640000000000001 ms, which renders as "2400000000:00:00.001"; the
    function wraps the difference in [new Date], which makes it an invalid
    Date, and returns "NaN:NaN:NaN.NaN". *)
Lemma timeSpanToString_span_out_of_range :
  instant (mkDate (Num (-1))) (-1) /\
  instant (mkDate (Num 8640000000000000)) 8640000000000000 /\
  timeSpanToString (P := UTC_host) (mkDate (Num (-1))) (mkDate (Num 8640000000000000))
  = Normal "NaN:NaN:NaN.NaN"%string /\
  HH_mm_ss_sss (Z.abs (8640000000000000 - (-1))) = "2400000000:00:00.001"%string /\
  timeSpanToString (P := UTC_host) (mkDate (Num (-1))) (mkDate (Num 8640000000000000))
  <> Normal (HH_mm_ss_sss (Z.abs (8640000000000000 - (-1)))).
Proof.
  repeat split; try reflexivity; vm_compute; discriminate.
Qed.

(** One hundred hours on the example host. *)
Lemma timeSpanToString_long_span_100h :
  exists hh mm ss sss : string,
    timeSpanToString (P := UTC_host) (mkDate (Num 0)) (mkDate (Num 360000000))
    = Normal (hh ++ ":" ++ mm ++ ":" ++ ss ++ "." ++ sss)%string /\
    (2 < String.length hh)%nat /\ String.length mm = 2%nat /\
    String.length ss = 2%nat /\ String.length sss = 3%nat.
Proof.
  destruct (timeSpanToString_long_span (P := UTC_host)
              (mkDate (Num 0)) (mkDate (Num 360000000)) 0 360000000)
    as (hh & mm & ss & sss & H & _ & _ & Hhh & _ & Hmm & _ & Hss & _ & Hsss).
  - split; [reflexivity | vm_compute; discriminate].
  - split; [reflexivity | vm_compute; discriminate].
  - split; vm_compute; discriminate.
  - exists hh, mm, ss, sss. auto.
Defined.

(** C8 fails on the code: the two ends of the range of time values are more
    than 100 hours apart, and the string returned for them,
    "NaN:NaN:NaN.NaN", has no hours, minutes, seconds and milliseconds
    fields of the stated widths: the difference wrapped in [new Date] is an
    invalid Date. *)
Lemma timeSpanToString_long_span_unbounded_fails :
  instant (mkDate (Num (-8640000000000000))) (-8640000000000000) /\
  instant (mkDate (Num 8640000000000000)) 8640000000000000 /\
  100 * msPerHour <= Z.abs (8640000000000000 - (-8640000000000000)) /\
  timeSpanToString (P := UTC_host)
    (mkDate (Num (-8640000000000000))) (mkDate (Num 8640000000000000))
  = Normal "NaN:NaN:NaN.NaN"%string /\
  ~ (exists hh mm ss sss : string,
        timeSpanToString (P := UTC_host)
          (mkDate (Num (-8640000000000000))) (mkDate (Num 8640000000000000))
        = Normal (hh ++ ":" ++ mm ++ ":" ++ ss ++ "." ++ sss)%string /\
        (2 < String.length hh)%nat /\ String.length mm = 2%nat /\
        String.length ss = 2%nat /\ String.length sss = 3%nat).
Proof.
  split; [split; [reflexivity | vm_compute; discriminate] | ].
  split; [split; [reflexivity | vm_compute; discriminate] | ].
  split; [vm_compute; discriminate | ].
  split; [reflexivity | ].
  intros (hh & mm & ss & sss & E & Hhh & Hmm & Hss & Hsss).
  change (timeSpanToString _ _) with (Normal "NaN:NaN:NaN.NaN"%string) in E.
  injection E as E.
  pose proof (f_equal String.length E) as L.
  repeat first [rewrite length_append in L | progress cbn [String.length] in L].
  destruct hh as [| c1 [| c2 [| c3 [| c4 [| c5 [| c6 hh]]]]]]; cbn in *; try lia.
  inversion E.
Qed.

(** ** angleBetweenClockHands *)

Lemma HourFromTime_range (t : Z) : 0 <= HourFromTime t < 24.
Proof. apply Z.mod_pos_bound. reflexivity. Qed.

Lemma MinFromTime_range (t : Z) : 0 <= MinFromTime t < 60.
Proof. apply Z.mod_pos_bound. reflexivity. Qed.

Lemma clock_faces_complete (h m : Z) :
  0 <= h < 24 -> 0 <= m < 60 -> In (h, m) clock_faces.
Proof.
  intros Hh Hm. unfold clock_faces. apply in_flat_map.
  exists (Z.to_nat h). split; [apply in_seq; lia | ].
  apply in_map_iff. exists (Z.to_nat m).
  split; [f_equal; lia | apply in_seq; lia].
Qed.

(** A property checked on every face holds at every time value. *)
Lemma on_every_clock_face (Q : Z -> Z -> bool) :
  forallb (fun hm => Q (fst hm) (snd hm)) clock_faces = true ->
  forall t : Z, Q (HourFromTime t) (MinFromTime t) = true.
Proof.
  intros Hall t. rewrite forallb_forall in Hall.
  apply (Hall (HourFromTime t, MinFromTime t)).
  apply clock_faces_complete; [apply HourFromTime_range | apply MinFromTime_range].
Qed.

(** Binary64 comparison: equal values are not ordered. *)
Lemma float_eqb_not_ltb (x y : float) :
  (x =? y)%float = true -> (y <? x)%float = false.
Proof.
  rewrite FloatAxioms.eqb_spec, FloatAxioms.ltb_spec.
  unfold SpecFloat.SFeqb, SpecFloat.SFltb.
  destruct (Prim2SF x) as [sx | sx | | sx mx ex], (Prim2SF y) as [sy | sy | | sy my ey];
    cbn; try discriminate; try reflexivity;
    try (destruct sx, sy; cbn; discriminate || reflexivity).
  destruct sx, sy; try discriminate; try reflexivity.
  - rewrite (Z.compare_antisym ex ey).
    change (PosDef.Pos.compare_cont Eq my mx) with (Pos.compare_cont Eq my mx).
    rewrite (ZC4 my mx).
    destruct (ex ?= ey)%Z; cbn; try discriminate.
    destruct (Pos.compare_cont Eq mx my); cbn; discriminate || reflexivity.
  - rewrite (Z.compare_antisym ex ey).
    change (PosDef.Pos.compare_cont Eq my mx) with (Pos.compare_cont Eq my mx).
    rewrite (ZC4 my mx).
    destruct (ex ?= ey)%Z; cbn; try discriminate.
    destruct (Pos.compare_cont Eq mx my); cbn; discriminate || reflexivity.
Qed.

Lemma range_check_all :
  forallb (fun hm => range_check (fst hm) (snd hm)) clock_faces = true.
Proof. vm_compute. reflexivity. Qed.

Section Angle.

Context `{P : Platform}.

Lemma angleBetweenClockHands_result (date : value) :
  angleBetweenClockHands date =
  (r <- clock_result date ;; Normal (radians_of_result r)).
Proof.
  unfold angleBetweenClockHands, clock_result.
  destruct (Date_construct date) as [newdate | e]; [ | reflexivity].
  cbn [bind]. unfold radians_of_result. cbv zeta.
  fold (raw_angle (getUTCHours newdate) (getUTCMinutes newdate)).
  destruct (180 <? _)%float; [reflexivity | ].
  destruct (_ =? 180)%float; reflexivity.
Qed.

Lemma clock_result_instant (d : Date) (t : Z) :
  instant d t ->
  clock_result (VDate d) = Normal (raw_angle (getUTCHours d) (getUTCMinutes d)) /\
  getUTCHours d = Num (HourFromTime t) /\
  getUTCMinutes d = Num (MinFromTime t).
Proof.
  intros Hd. unfold clock_result. rewrite (Date_construct_instant d t Hd).
  destruct Hd as [Hv _]. unfold getUTCHours, getUTCMinutes. rewrite Hv. auto.
Qed.

Lemma angleBetweenClockHands_instant (d : Date) (t : Z) :
  instant d t ->
  angleBetweenClockHands (VDate d) =
  Normal (radians_of_result (raw_angle (getUTCHours d) (getUTCMinutes d))).
Proof.
  intros Hd. rewrite angleBetweenClockHands_result.
  destruct (clock_result_instant d t Hd) as (-> & _). reflexivity.
Qed.

(** X1: the range of the value returned on an instant at the UTC hour [h]
    and minute [m]: never above pi; below zero exactly when
    [5 * h' < m] and [11 * m < 60 * h'], [h'] the hour on the dial;
    otherwise at least zero. *)
Lemma angleBetweenClockHands_range (d : Date) (t : Z) :
  instant d t ->
  exists a : float,
    angleBetweenClockHands (VDate d) = Normal a /\
    (a <=? Math_PI)%float = true /\
    ((a <? 0)%float = true <->
     5 * dial_hour (HourFromTime t) < MinFromTime t /\
     11 * MinFromTime t < 60 * dial_hour (HourFromTime t)) /\
    ((a <? 0)%float = false -> (0 <=? a)%float = true).
Proof.
  intros Hd. rewrite (angleBetweenClockHands_instant d t Hd).
  destruct (clock_result_instant d t Hd) as (_ & -> & ->).
  eexists. split; [reflexivity | ].
  pose proof (on_every_clock_face range_check range_check_all t) as Hc.
  unfold range_check in Hc. cbv zeta in Hc.
  set (a := radians_of_result _) in *.
  apply andb_prop in Hc as [Hc Hpos]. apply andb_prop in Hc as [Hle Hneg].
  apply Bool.eqb_prop in Hneg.
  split; [exact Hle | ]. split.
  - rewrite Hneg, andb_true_iff, !Z.ltb_lt. tauto.
  - intros Hn. rewrite Hn in Hpos. exact Hpos.
Qed.

(** C5: on an instant at UTC 00:00 the angle is 0, at 03:00 it is pi/2, at
    18:00 it is pi and at 21:00 it is pi/2; so it is for the four time
    values [Date.UTC] gives in the examples of the module. *)
Theorem angleBetweenClockHands_examples (d : Date) (t : Z) :
  instant d t ->
  (getUTCHours d = Num 0 -> getUTCMinutes d = Num 0 ->
   angleBetweenClockHands (VDate d) = Normal 0%float) /\
  (getUTCHours d = Num 3 -> getUTCMinutes d = Num 0 ->
   angleBetweenClockHands (VDate d) = Normal (Math_PI / 2)%float) /\
  (getUTCHours d = Num 18 -> getUTCMinutes d = Num 0 ->
   angleBetweenClockHands (VDate d) = Normal Math_PI) /\
  (getUTCHours d = Num 21 -> getUTCMinutes d = Num 0 ->
   angleBetweenClockHands (VDate d) = Normal (Math_PI / 2)%float) /\
  angleBetweenClockHands (VNumber (Date_UTC 2016 2 5 0 0 0 0)) = Normal 0%float /\
  angleBetweenClockHands (VNumber (Date_UTC 2016 3 5 3 0 0 0))
  = Normal (Math_PI / 2)%float /\
  angleBetweenClockHands (VNumber (Date_UTC 2016 3 5 18 0 0 0)) = Normal Math_PI /\
  angleBetweenClockHands (VNumber (Date_UTC 2016 3 5 21 0 0 0))
  = Normal (Math_PI / 2)%float.
Proof.
  intros Hd. rewrite (angleBetweenClockHands_instant d t Hd).
  repeat split; try (intros -> ->); vm_compute; reflexivity.
Qed.

(** The statements of lines 130-137, run on [result], return what the
    function returns. *)
Lemma angleBetweenClockHands_returned (date : value) (result : float) :
  clock_result date = Normal result ->
  exists line : nat,
    returned return_statements result = Some (line, radians_of_result result) /\
    angleBetweenClockHands date = Normal (radians_of_result result).
Proof.
  intros Hr. rewrite angleBetweenClockHands_result, Hr. cbn [bind].
  unfold radians_of_result, return_statements. cbn [returned].
  destruct (180 <? result)%float; [eauto | ].
  destruct (result =? 180)%float; eauto.
Qed.

(** The last return, had it been reached with [result] equal to 180, would
    have given the same binary64 value: the value returned does not tell
    which statement returned it, the line does. *)
Lemma general_formula_at_180 :
  ((180 * Math_PI) / 180)%float = Math_PI.
Proof. vm_compute. reflexivity. Qed.

(** C6: whenever the variable [result] is equal to 180 the function returns
    [Math.PI], and the statement that returns is the one of line 134, whose
    value is the constant [Math.PI]: the test of line 130 fails, and the
    multiplications of lines 131 and 137 are not reached. *)
Theorem angleBetweenClockHands_straight_angle (date : value) (result : float) :
  clock_result date = Normal result ->
  (result =? 180)%float = true ->
  angleBetweenClockHands date = Normal Math_PI /\
  returned return_statements result = Some (134%nat, Math_PI) /\
  (forall (line : nat) (value : float),
      returned return_statements result = Some (line, value) ->
      line = 134%nat /\ angleBetweenClockHands date = Normal value).
Proof.
  intros Hr H180.
  destruct (angleBetweenClockHands_returned date result Hr) as (line & Hline & Hangle).
  assert (returned return_statements result = Some (134%nat, Math_PI)) as H134.
  { unfold return_statements. cbn [returned].
    now rewrite (float_eqb_not_ltb _ _ H180), H180. }
  assert (radians_of_result result = Math_PI) as Hpi.
  { rewrite Hline in H134.
    exact (f_equal (fun o => match o with
                             | Some (_, v) => v
                             | None => Math_PI
                             end) H134). }
  rewrite Hpi in Hangle.
  split; [exact Hangle | ]. split; [exact H134 | ].
  intros line' value' Hret. rewrite H134 in Hret.
  assert (line' = 134%nat) as ->.
  { exact (f_equal (fun o => match o with
                             | Some (l, _) => l
                             | None => 134%nat
                             end) (eq_sym Hret)). }
  assert (value' = Math_PI) as ->.
  { exact (f_equal (fun o => match o with
                             | Some (_, v) => v
                             | None => Math_PI
                             end) (eq_sym Hret)). }
  split; [reflexivity | exact Hangle].
Qed.

End Angle.

(** 18:00 UTC on the example host. *)
Lemma angleBetweenClockHands_examples_1800 :
  angleBetweenClockHands (P := UTC_host) (VDate (mkDate (Date_UTC 2016 3 5 18 0 0 0)))
  = Normal Math_PI.
Proof.
  destruct (angleBetweenClockHands_examples (P := UTC_host)
              (mkDate (Date_UTC 2016 3 5 18 0 0 0)) 1459879200000)
    as (_ & _ & H & _).
  - split; [reflexivity | vm_compute; discriminate].
  - apply H; reflexivity.
Defined.

(** 06:00 UTC: the hands are opposite, [result] is 180, and line 134
    returns. *)
Lemma angleBetweenClockHands_straight_angle_0600 :
  angleBetweenClockHands (P := UTC_host) (VNumber (Date_UTC 2016 3 5 6 0 0 0))
  = Normal Math_PI /\
  returned return_statements 180%float = Some (134%nat, Math_PI).
Proof.
  destruct (angleBetweenClockHands_straight_angle (P := UTC_host)
              (VNumber (Date_UTC 2016 3 5 6 0 0 0)) 180%float)
    as (Hvalue & Hline & _).
  - vm_compute. reflexivity.
  - vm_compute. reflexivity.
  - split; [exact Hvalue | exact Hline].
Defined.

(** C1 fails on the code: at 03:16 UTC the minute hand (96 degrees) is past
    the hour mark (90) but not past the hour hand (98); [result] is -2 and
    the value returned is -2 * pi / 180, below zero. *)
Theorem angleBetweenClockHands_negative_at_0316 :
  Date_UTC 2016 3 5 3 16 0 0 = Num 1459826160000 /\
  clock_result (P := UTC_host) (VNumber (Date_UTC 2016 3 5 3 16 0 0)) = Normal (-2)%float /\
  angleBetweenClockHands (P := UTC_host) (VNumber (Date_UTC 2016 3 5 3 16 0 0))
  = Normal ((-2 * Math_PI) / 180)%float /\
  ((-2 * Math_PI) / 180 <? 0)%float = true.
Proof. repeat split; vm_compute; reflexivity. Qed.

(** ** Further properties of angleBetweenClockHands *)

(** 03:16 UTC on the example host: below zero, and not above pi. *)
Lemma angleBetweenClockHands_range_0316 :
  exists a : float,
    angleBetweenClockHands (P := UTC_host) (VDate (mkDate (Date_UTC 2016 3 5 3 16 0 0)))
    = Normal a /\
    (a <=? Math_PI)%float = true /\ (a <? 0)%float = true.
Proof.
  destruct (angleBetweenClockHands_range (P := UTC_host)
              (mkDate (Date_UTC 2016 3 5 3 16 0 0)) 1459826160000)
    as (a & Ha & Hle & Hneg & _).
  - split; [reflexivity | vm_compute; discriminate].
  - exists a. split; [exact Ha | ]. split; [exact Hle | ].
    apply Hneg. split; reflexivity.
Defined.

Lemma exact_check_all :
  forallb (fun hm => exact_check (fst hm) (snd hm)) clock_faces = true.
Proof. vm_compute. reflexivity. Qed.

Lemma half_day_check_all :
  forallb (fun hm => half_day_check (fst hm) (snd hm)) clock_faces = true.
Proof. vm_compute. reflexivity. Qed.

(** The hour and the minute of a time value are those of its whole minutes. *)
Lemma fields_of_minute (t : Z) :
  HourFromTime t = (t / msPerMinute / 60) mod 24 /\
  MinFromTime t = (t / msPerMinute) mod 60.
Proof.
  unfold HourFromTime, MinFromTime, msPerHour, msPerMinute, HoursPerDay, MinutesPerHour.
  split; [ | reflexivity].
  rewrite Z.div_div by lia. reflexivity.
Qed.

Lemma fields_half_day_later (t : Z) :
  HourFromTime t < 12 ->
  HourFromTime (t + 12 * msPerHour) = HourFromTime t + 12 /\
  MinFromTime (t + 12 * msPerHour) = MinFromTime t.
Proof.
  unfold HourFromTime, MinFromTime, msPerHour, msPerMinute, HoursPerDay, MinutesPerHour.
  intros H. split; Z.div_mod_to_equations; lia.
Qed.

Lemma twice_result_bounds (h m : Z) :
  0 <= h < 24 -> 0 <= m < 60 -> -44 <= twice_result h m <= 720.
Proof.
  intros Hh Hm. unfold twice_result, dial_hour.
  destruct (12 <? h) eqn:E12; [apply Z.ltb_lt in E12 | apply Z.ltb_ge in E12];
    destruct (_ <? m) eqn:E; [apply Z.ltb_lt in E | apply Z.ltb_ge in E
                             | apply Z.ltb_lt in E | apply Z.ltb_ge in E]; lia.
Qed.

Section AngleProperties.

Context `{P : Platform}.

(** X2: on an instant at the UTC hour [h] and minute [m] the variable
    [result] is computed without rounding: it is half of the integer
    [11 * m - 60 * h'] when [5 * h' < m] and half of [60 * h' - 11 * m]
    otherwise, [h'] the hour on the dial ([h - 12] above 12); that integer
    lies between -44 and 720. *)
Theorem clock_result_exact (d : Date) (t : Z) :
  instant d t ->
  clock_result (VDate d)
  = Normal (binary64 (Num (twice_result (HourFromTime t) (MinFromTime t))) / 2)%float /\
  -44 <= twice_result (HourFromTime t) (MinFromTime t) <= 720 /\
  Z.abs (twice_result (HourFromTime t) (MinFromTime t))
  = Z.abs (60 * dial_hour (HourFromTime t) - 11 * MinFromTime t).
Proof.
  intros Hd.
  destruct (clock_result_instant d t Hd) as (-> & -> & ->).
  pose proof (on_every_clock_face exact_check exact_check_all t) as Hc.
  apply FloatAxioms.Leibniz.eqb_spec in Hc.
  split; [now rewrite Hc | ].
  split; [apply twice_result_bounds; [apply HourFromTime_range | apply MinFromTime_range] | ].
  unfold twice_result. destruct (_ <? _); lia.
Qed.

(** X3: the seconds and milliseconds of the instant play no part: two
    instants within the same minute give the same result. *)
Theorem angleBetweenClockHands_same_minute (d d' : Date) (t t' : Z) :
  instant d t -> instant d' t' ->
  t / msPerMinute = t' / msPerMinute ->
  angleBetweenClockHands (VDate d) = angleBetweenClockHands (VDate d').
Proof.
  intros Hd Hd' Hmin.
  rewrite (angleBetweenClockHands_instant d t Hd),
    (angleBetweenClockHands_instant d' t' Hd').
  destruct (clock_result_instant d t Hd) as (_ & -> & ->).
  destruct (clock_result_instant d' t' Hd') as (_ & -> & ->).
  destruct (fields_of_minute t) as [-> ->], (fields_of_minute t') as [-> ->].
  now rewrite Hmin.
Qed.

(** X4: twelve hours later the result is the same when the UTC hour is
    between 1 and 11.  It is not always so at hour 0: hour 12 is kept as 12
    on the dial, [result] is above 180 and goes through the other formula,
    and at 00:09 and 12:09 the two results differ. *)
Theorem angleBetweenClockHands_half_day (d d' : Date) (t : Z) :
  instant d t -> instant d' (t + 12 * msPerHour) ->
  1 <= HourFromTime t < 12 ->
  angleBetweenClockHands (VDate d') = angleBetweenClockHands (VDate d) /\
  angleBetweenClockHands (VNumber (Date_UTC 2016 3 5 12 9 0 0))
  <> angleBetweenClockHands (VNumber (Date_UTC 2016 3 5 0 9 0 0)).
Proof.
  intros Hd Hd' Hh. split.
  - rewrite (angleBetweenClockHands_instant d t Hd),
      (angleBetweenClockHands_instant d' _ Hd').
    destruct (clock_result_instant d t Hd) as (_ & -> & ->).
    destruct (clock_result_instant d' _ Hd') as (_ & -> & ->).
    destruct (fields_half_day_later t ltac:(lia)) as [-> ->].
    pose proof (on_every_clock_face half_day_check half_day_check_all t) as Hc.
    unfold half_day_check in Hc.
    destruct (Z.leb_spec 1 (HourFromTime t)); [ | lia].
    destruct (Z.ltb_spec (HourFromTime t) 12); [ | lia].
    cbn [andb] in Hc. apply FloatAxioms.Leibniz.eqb_spec in Hc. now rewrite Hc.
  - intros E.
    assert (Normal (radians_of_result (raw_angle (Num 12) (Num 9)))
            = Normal (radians_of_result (raw_angle (Num 0) (Num 9)))) as E'.
    { etransitivity; [ | etransitivity; [exact E | ]].
      - symmetry. rewrite angleBetweenClockHands_result. reflexivity.
      - rewrite angleBetweenClockHands_result. reflexivity. }
    pose proof (f_equal (fun c => match c with
                                  | Normal a => a
                                  | Throw _ => PrimFloat.nan
                                  end) E') as Ea.
    cbv beta iota in Ea. apply FloatAxioms.Leibniz.eqb_spec in Ea.
    vm_compute in Ea. discriminate Ea.
Qed.

(** X5: when [new Date(date)] is an invalid Date (an invalid Date object, a
    number that is NaN or out of range, a string the host does not
    recognise) the function does not throw and returns NaN. *)
Theorem angleBetweenClockHands_invalid (date : value) (d : Date) :
  Date_construct date = Normal d -> DateValue d = NaN ->
  angleBetweenClockHands date = Normal PrimFloat.nan.
Proof.
  intros Hc Hd. unfold angleBetweenClockHands. rewrite Hc. cbn [bind].
  unfold getUTCHours, getUTCMinutes. rewrite Hd. vm_compute. reflexivity.
Qed.

End AngleProperties.

(** ** Further properties of timeSpanToString *)

(** Rounding to binary64 does not bring a difference back into the range of
    time values. *)
Lemma round_binary64_large (x : Z) :
  maxTimeValue < Z.abs x -> maxTimeValue < Z.abs (round_binary64 x).
Proof.
  intros Hx. unfold round_binary64.
  assert (Z.abs (Z.sgn x) = 1) as Hsgn.
  { destruct x; [unfold maxTimeValue in Hx; cbn in Hx; lia | reflexivity ..]. }
  destruct (Z.leb_spec (Z.log2 (Z.abs x) - 52) 0) as [_ | He]; [exact Hx | ].
  set (a := Z.abs x) in *. set (e := Z.log2 a - 52) in *.
  assert (0 < a) as Ha by (unfold maxTimeValue in Hx; lia).
  assert (0 < 2 ^ e) as HE by (apply Z.pow_pos_nonneg; lia).
  assert (2 <= 2 ^ e) as HE2.
  { replace 2 with (2 ^ 1) at 1 by reflexivity. apply Z.pow_le_mono_r; lia. }
  assert (2 ^ 52 * 2 ^ e <= a) as Hlow.
  { rewrite <- Z.pow_add_r by lia. replace (52 + e) with (Z.log2 a) by (unfold e; lia).
    apply Z.log2_spec. exact Ha. }
  assert (2 ^ 52 <= a / 2 ^ e) as Hq by (apply Z.div_le_lower_bound; lia).
  set (q := a / 2 ^ e) in *.
  set (q' := if a mod 2 ^ e <? 2 ^ (e - 1) then q
             else if 2 ^ (e - 1) <? a mod 2 ^ e then q + 1
             else if Z.even q then q else q + 1).
  assert (q <= q') as Hq'.
  { unfold q'. destruct (_ <? _); [lia | ]. destruct (_ <? _); [lia | ].
    destruct (Z.even q); lia. }
  assert (Z.abs (Z.sgn x * (q' * 2 ^ e)) = q' * 2 ^ e) as ->.
  { rewrite Z.abs_mul, Hsgn, Z.abs_eq; [lia | ]. apply Z.mul_nonneg_nonneg; lia. }
  assert (2 ^ 52 * 2 <= q' * 2 ^ e) as Hbig by (apply Z.mul_le_mono_nonneg; lia).
  change (2 ^ 52 * 2) with 9007199254740992 in Hbig.
  unfold maxTimeValue. lia.
Qed.

(** What the formatter is made of reads as decimal digits. *)
Lemma digits_only_digits (f : nat) :
  forall (n : Z) (rest : string),
    digits_only rest = true -> digits_only (digits f n rest) = true.
Proof.
  induction f as [| f IH]; intros n rest Hrest; cbn [digits]; [exact Hrest | ].
  assert (digits_only (String (digit_char (n mod 10)) rest) = true) as Hd.
  { cbn [digits_only].
    rewrite digit_value_digit_char by (apply Z.mod_pos_bound; lia). exact Hrest. }
  destruct (n <? 10); [exact Hd | now apply IH].
Qed.

Lemma digits_only_zero_pad (w : nat) (n : Z) :
  digits_only (zero_pad w (decimal n)) = true.
Proof.
  unfold zero_pad.
  induction (w - String.length (decimal n))%nat as [| k IH]; [ | exact IH].
  apply digits_only_digits. reflexivity.
Qed.

(** A separator that is no digit splits a string in one way only. *)
Lemma split_at_separator (c : ascii) :
  digit_value c = None ->
  forall a b r1 r2 : string,
    digits_only a = true -> digits_only b = true ->
    (a ++ String c r1)%string = (b ++ String c r2)%string ->
    a = b /\ r1 = r2.
Proof.
  intros Hc a. induction a as [| x a IH]; intros [| y b] r1 r2 Ha Hb E; cbn in *.
  - injection E as ->. auto.
  - injection E as -> _. rewrite Hc in Hb. discriminate.
  - injection E as -> _. rewrite Hc in Ha. discriminate.
  - injection E as -> E.
    destruct (digit_value y); [ | discriminate].
    destruct (IH b r1 r2 Ha Hb E) as [-> ->]. auto.
Qed.

Lemma zero_pad_decimal_inj (w : nat) (n1 n2 : Z) :
  0 <= n1 -> 0 <= n2 ->
  zero_pad w (decimal n1) = zero_pad w (decimal n2) -> n1 = n2.
Proof.
  intros H1 H2 E. apply (f_equal (fun s => decimal_value s 0)) in E.
  unfold zero_pad in E.
  rewrite !decimal_value_zeros, !decimal_value_decimal in E by assumption.
  now injection E.
Qed.

(** The rendering keeps the span. *)
Lemma HH_mm_ss_sss_inj (D1 D2 : Z) :
  0 <= D1 -> 0 <= D2 -> HH_mm_ss_sss D1 = HH_mm_ss_sss D2 -> D1 = D2.
Proof.
  intros H1 H2 E. unfold HH_mm_ss_sss, msPerHour, msPerMinute, msPerSecond in E.
  apply (split_at_separator ":"%char eq_refl) in E;
    try apply digits_only_zero_pad.
  destruct E as [Eh E].
  apply (split_at_separator ":"%char eq_refl) in E;
    try apply digits_only_zero_pad.
  destruct E as [Em E].
  apply (split_at_separator "."%char eq_refl) in E;
    try apply digits_only_zero_pad.
  destruct E as [Es Ems].
  apply zero_pad_decimal_inj in Eh; [ | apply Z.div_pos; lia ..].
  apply zero_pad_decimal_inj in Em; [ | apply Z.mod_pos_bound; lia ..].
  apply zero_pad_decimal_inj in Es; [ | apply Z.mod_pos_bound; lia ..].
  apply zero_pad_decimal_inj in Ems; [ | apply Z.mod_pos_bound; lia ..].
  revert Eh Em Es Ems. Z.div_mod_to_equations. lia.
Qed.

Lemma HH_mm_ss_sss_length (D : Z) :
  0 <= D ->
  String.length (HH_mm_ss_sss D)
  = (Nat.max 2 (String.length (decimal (D / msPerHour))) + 10)%nat.
Proof.
  intros HD. unfold HH_mm_ss_sss.
  pose proof (Z.mod_pos_bound (D / msPerMinute) 60 ltac:(lia)).
  pose proof (Z.mod_pos_bound (D / msPerSecond) 60 ltac:(lia)).
  pose proof (Z.mod_pos_bound D 1000 ltac:(lia)).
  repeat first [rewrite length_append | progress cbn [String.length]].
  rewrite (field_width_2 (D / msPerMinute mod 60)),
    (field_width_2 (D / msPerSecond mod 60)), (field_width_3 (D mod 1000)) by lia.
  rewrite zero_pad_length. lia.
Qed.

Section TimeSpanProperties.

Context `{P : Platform}.

(** X6: when the difference of the two Dates is no time value, because one
    of them is invalid or because they are more than 8.64e15 ms apart, the
    function does not throw: it returns the string "NaN:NaN:NaN.NaN". *)
Theorem timeSpanToString_not_a_time_value (startDate endDate : Date) :
  DateValue startDate = NaN \/ DateValue endDate = NaN \/
  (exists t1 t2 : Z,
      DateValue startDate = Num t1 /\ DateValue endDate = Num t2 /\
      maxTimeValue < Z.abs (t2 - t1)) ->
  timeSpanToString startDate endDate = Normal "NaN:NaN:NaN.NaN"%string.
Proof.
  intros H. rewrite timeSpanToString_render. unfold valueOf.
  destruct H as [Hs | [He | (t1 & t2 & Hs & He & Hfar)]].
  - rewrite Hs. destruct (DateValue endDate); reflexivity.
  - rewrite He. reflexivity.
  - rewrite Hs, He. unfold Number.subtract.
    rewrite TimeClip_out_of_range by now apply round_binary64_large.
    reflexivity.
Qed.

(** X7: for two instants at most 8.64e15 ms apart the string has at least 12
    characters, and exactly 12 when the span is below 100 hours. *)
Theorem timeSpanToString_length (startDate endDate : Date) (t1 t2 : Z) :
  instant startDate t1 -> instant endDate t2 ->
  Z.abs (t2 - t1) <= maxTimeValue ->
  exists out : string,
    timeSpanToString startDate endDate = Normal out /\
    (12 <= String.length out)%nat /\
    (String.length out = 12%nat <-> Z.abs (t2 - t1) < 100 * msPerHour).
Proof.
  intros Hs He Hspan.
  rewrite (timeSpanToString_instants startDate endDate t1 t2 Hs He Hspan).
  set (D := Z.abs (t2 - t1)) in *.
  exists (HH_mm_ss_sss D). split; [reflexivity | ].
  rewrite HH_mm_ss_sss_length by lia.
  assert (0 <= D / msPerHour) as Hh by (apply Z.div_pos; [lia | reflexivity]).
  split; [lia | ].
  unfold msPerHour in *.
  destruct (Z.lt_ge_cases D (100 * 3600000)) as [Hlt | Hge].
  - assert (D / 3600000 < 100) as Hh100 by (apply Z.div_lt_upper_bound; lia).
    split; [intros _; exact Hlt | intros _].
    destruct (Z.lt_ge_cases (D / 3600000) 10).
    + rewrite decimal_length_1 by lia. reflexivity.
    + rewrite decimal_length_2 by lia. reflexivity.
  - assert (100 <= D / 3600000) as Hh100 by (apply Z.div_le_lower_bound; lia).
    pose proof (decimal_length_ge3 _ Hh100). split; intros; lia.
Qed.

(** X8: for two instants at most 8.64e15 ms apart the four fields of the
    string are decimal numerals that read back, as the language reads a
    string as a number, as hours, minutes below 60, seconds below 60 and
    milliseconds below 1000 which add up to the span. *)
Theorem timeSpanToString_fields_read_back (startDate endDate : Date) (t1 t2 : Z) :
  instant startDate t1 -> instant endDate t2 ->
  Z.abs (t2 - t1) <= maxTimeValue ->
  exists (hh mm ss sss : string) (h m s ms : Z),
    timeSpanToString startDate endDate
    = Normal (hh ++ ":" ++ mm ++ ":" ++ ss ++ "." ++ sss)%string /\
    digits_only hh = true /\ digits_only mm = true /\
    digits_only ss = true /\ digits_only sss = true /\
    StringToNumber hh = Num h /\ StringToNumber mm = Num m /\
    StringToNumber ss = Num s /\ StringToNumber sss = Num ms /\
    0 <= h /\ 0 <= m < 60 /\ 0 <= s < 60 /\ 0 <= ms < 1000 /\
    h * msPerHour + m * msPerMinute + s * msPerSecond + ms = Z.abs (t2 - t1).
Proof.
  intros Hs He Hspan.
  rewrite (timeSpanToString_instants startDate endDate t1 t2 Hs He Hspan).
  set (D := Z.abs (t2 - t1)) in *.
  assert (0 <= D) as HD by (unfold D; lia).
  pose proof (Z.mod_pos_bound (D / msPerMinute) 60 ltac:(lia)) as Hm.
  pose proof (Z.mod_pos_bound (D / msPerSecond) 60 ltac:(lia)) as Hsec.
  pose proof (Z.mod_pos_bound D 1000 ltac:(lia)) as Hms.
  assert (0 <= D / msPerHour <= D) as Hh.
  { unfold msPerHour. split; [apply Z.div_pos; lia | ].
    apply Z.div_le_upper_bound; lia. }
  exists (zero_pad 2 (decimal (D / msPerHour))),
    (zero_pad 2 (decimal (D / msPerMinute mod 60))),
    (zero_pad 2 (decimal (D / msPerSecond mod 60))),
    (zero_pad 3 (decimal (D mod 1000))),
    (D / msPerHour), (D / msPerMinute mod 60), (D / msPerSecond mod 60), (D mod 1000).
  split; [reflexivity | ].
  repeat (split; [apply digits_only_zero_pad | ]).
  repeat (split; [apply StringToNumber_zero_pad; in_range | ]).
  repeat (split; [lia | ]).
  unfold msPerHour, msPerMinute, msPerSecond in *.
  clear Hm Hsec Hms Hh. Z.div_mod_to_equations. lia.
Qed.

(** X9: the string determines the span: two pairs of instants, each at most
    8.64e15 ms apart, that give the same string are the same number of
    milliseconds apart. *)
Theorem timeSpanToString_injective
    (start1 end1 start2 end2 : Date) (a1 b1 a2 b2 : Z) :
  instant start1 a1 -> instant end1 b1 -> Z.abs (b1 - a1) <= maxTimeValue ->
  instant start2 a2 -> instant end2 b2 -> Z.abs (b2 - a2) <= maxTimeValue ->
  timeSpanToString start1 end1 = timeSpanToString start2 end2 ->
  Z.abs (b1 - a1) = Z.abs (b2 - a2).
Proof.
  intros Hs1 He1 H1 Hs2 He2 H2 E.
  rewrite (timeSpanToString_instants start1 end1 a1 b1 Hs1 He1 H1) in E.
  rewrite (timeSpanToString_instants start2 end2 a2 b2 Hs2 He2 H2) in E.
  assert (HH_mm_ss_sss (Z.abs (b1 - a1)) = HH_mm_ss_sss (Z.abs (b2 - a2))) as E'
      by congruence.
  apply HH_mm_ss_sss_inj in E'; [exact E' | lia | lia].
Qed.

End TimeSpanProperties.

(** An invalid start Date on the example host. *)
Lemma timeSpanToString_not_a_time_value_invalid :
  timeSpanToString (P := UTC_host) Invalid_Date (mkDate (Num 0))
  = Normal "NaN:NaN:NaN.NaN"%string.
Proof.
  apply (timeSpanToString_not_a_time_value (P := UTC_host) Invalid_Date (mkDate (Num 0))).
  left. reflexivity.
Defined.

(** 99 h 59 min 59.999 s on the example host: twelve characters. *)
Lemma timeSpanToString_length_99h :
  exists out : string,
    timeSpanToString (P := UTC_host) (mkDate (Num 359999999)) (mkDate (Num 0)) = Normal out /\
    String.length out = 12%nat.
Proof.
  destruct (timeSpanToString_length (P := UTC_host)
              (mkDate (Num 359999999)) (mkDate (Num 0)) 359999999 0)
    as (out & Hout & _ & Hlen).
  - split; [reflexivity | vm_compute; discriminate].
  - split; [reflexivity | vm_compute; discriminate].
  - vm_compute; discriminate.
  - exists out. split; [exact Hout | ]. apply Hlen. reflexivity.
Defined.

(** 5 h 20 min 10.453 s on the example host. *)
Lemma timeSpanToString_fields_read_back_example :
  exists (hh mm ss sss : string) (h m s ms : Z),
    timeSpanToString (P := UTC_host) (mkDate (Num 0)) (mkDate (Num 19210453))
    = Normal (hh ++ ":" ++ mm ++ ":" ++ ss ++ "." ++ sss)%string /\
    StringToNumber hh = Num h /\ StringToNumber mm = Num m /\
    StringToNumber ss = Num s /\ StringToNumber sss = Num ms /\
    h * msPerHour + m * msPerMinute + s * msPerSecond + ms = 19210453.
Proof.
  destruct (timeSpanToString_fields_read_back (P := UTC_host)
              (mkDate (Num 0)) (mkDate (Num 19210453)) 0 19210453)
    as (hh & mm & ss & sss & h & m & s & ms & H & _ & _ & _ & _ &
        Hh & Hm & Hs & Hms & _ & _ & _ & _ & Hsum).
  - split; [reflexivity | vm_compute; discriminate].
  - split; [reflexivity | vm_compute; discriminate].
  - vm_compute; discriminate.
  - exists hh, mm, ss, sss, h, m, s, ms. auto 10.
Defined.

(** One second, forwards and backwards, on the example host. *)
Lemma timeSpanToString_injective_example :
  Z.abs (1000 - 0) = Z.abs (4000 - 5000).
Proof.
  apply (timeSpanToString_injective (P := UTC_host)
           (mkDate (Num 0)) (mkDate (Num 1000)) (mkDate (Num 5000)) (mkDate (Num 4000))
           0 1000 5000 4000);
    try (split; [reflexivity | vm_compute; discriminate]);
    try (vm_compute; discriminate).
  reflexivity.
Defined.

(** ** Further properties of isLeapYear and of the parsers *)

Lemma YearFromTime_unique (t y : Z) :
  TimeFromYear y <= t < TimeFromYear (y + 1) -> YearFromTime t = y.
Proof.
  intros Hy. pose proof (YearFromTime_spec t) as Hs.
  set (y' := YearFromTime t) in *. clearbody y'.
  unfold TimeFromYear, DayFromYear, msPerDay in *.
  Z.div_mod_to_equations. lia.
Qed.

(** The test of [isLeapYear] holds exactly for the years of 366 days. *)
Lemma leap_test_366 (y : Z) :
  (if Z.rem y 100 =? 0 then Z.rem y 400 =? 0 else Z.rem y 4 =? 0) = true <->
  DayFromYear (y + 1) - DayFromYear y = 366.
Proof.
  rewrite Gregorian_leap_test. unfold Gregorian_leap.
  rewrite <- (Z.mod_divide y 4), <- (Z.mod_divide y 100), <- (Z.mod_divide y 400) by lia.
  unfold DayFromYear. Z.div_mod_to_equations. lia.
Qed.

Lemma TimeClip_idempotent (n : number) : TimeClip (TimeClip n) = TimeClip n.
Proof.
  destruct n as [| t]; [reflexivity | ]. cbn.
  destruct (maxTimeValue <? Z.abs t) eqn:E; [reflexivity | ]. cbn. now rewrite E.
Qed.

Lemma TimeClip_range (n : number) :
  TimeClip n = NaN \/ exists t : Z, TimeClip n = Num t /\ Z.abs t <= maxTimeValue.
Proof.
  destruct n as [| t]; [now left | ]. cbn.
  destruct (Z.ltb_spec maxTimeValue (Z.abs t)); [now left | right; eauto].
Qed.

Section MoreProperties.

Context `{P : Platform}.

(** X10: on an instant whose local time falls in the year [y] of the
    calendar, from the start of [y] to the start of [y + 1], [isLeapYear]
    returns true exactly when that year is 366 days long and false exactly
    when it is 365 days long. *)
Theorem isLeapYear_366_days (d : Date) (t y : Z) :
  instant d t ->
  TimeFromYear y <= LocalTime t < TimeFromYear (y + 1) ->
  (isLeapYear (VDate d) = Normal true <->
   TimeFromYear (y + 1) - TimeFromYear y = 366 * msPerDay) /\
  (isLeapYear (VDate d) = Normal false <->
   TimeFromYear (y + 1) - TimeFromYear y = 365 * msPerDay).
Proof.
  intros Hd Hy.
  assert (getFullYear d = Num y) as Hyear.
  { destruct Hd as [Hv _]. unfold getFullYear. rewrite Hv.
    now rewrite (YearFromTime_unique _ y Hy). }
  rewrite (isLeapYear_of_year d t y Hd Hyear).
  pose proof (leap_test_366 y) as Htest.
  pose proof (DayFromYear_step y) as Hstep.
  unfold TimeFromYear, msPerDay.
  destruct (if Z.rem y 100 =? 0 then Z.rem y 400 =? 0 else Z.rem y 4 =? 0).
  - assert (DayFromYear (y + 1) - DayFromYear y = 366) by now apply Htest.
    split; split; intros; try reflexivity; try discriminate; lia.
  - assert (DayFromYear (y + 1) - DayFromYear y <> 366)
      by (intros E; apply Htest in E; discriminate).
    split; split; intros; try reflexivity; try discriminate; lia.
Qed.

(** X11: a Date returned by a parser is the invalid Date or holds a time
    value within 8.64e15 ms of the epoch, whatever the host's [Date.parse]
    answers, and either parser given that Date returns it unchanged. *)
Theorem parsers_return_dates_in_range (v : value) (d : Date) :
  parseDataFromRfc2822 v = Normal d ->
  parseDataFromIso8601 v = Normal d /\
  (DateValue d = NaN \/ exists t : Z, instant d t) /\
  parseDataFromRfc2822 (VDate d) = Normal d /\
  parseDataFromIso8601 (VDate d) = Normal d.
Proof.
  unfold parseDataFromRfc2822, parseDataFromIso8601, Date_construct, instant.
  intros H. split; [exact H | ].
  assert (exists n, d = mkDate (TimeClip n)) as [n ->].
  { destruct v; try discriminate; injection H as <-; eauto. }
  cbn [DateValue]. rewrite TimeClip_idempotent.
  split; [ | split; reflexivity].
  destruct (TimeClip_range n) as [-> | (t & -> & Ht)]; [now left | right; eauto].
Qed.

(** X12: [isLeapYear] and [angleBetweenClockHands] build the Date themselves:
    on every value, text included, each gives what it gives on the Date a
    parser returns for that value, and throws when the parser throws. *)
Theorem parse_then_apply (v : value) :
  isLeapYear v = (d <- parseDataFromIso8601 v ;; isLeapYear (VDate d)) /\
  angleBetweenClockHands v
  = (d <- parseDataFromRfc2822 v ;; angleBetweenClockHands (VDate d)).
Proof.
  unfold isLeapYear, angleBetweenClockHands, parseDataFromIso8601,
    parseDataFromRfc2822, Date_construct.
  destruct v; cbn [bind DateValue]; rewrite ?TimeClip_idempotent; split; reflexivity.
Qed.

End MoreProperties.

(** 2016-04-05 on the example host: the year 2016 has 366 days. *)
Lemma isLeapYear_366_days_2016 :
  isLeapYear (P := UTC_host) (VDate (mkDate (Date_UTC 2016 3 5 0 0 0 0))) = Normal true.
Proof.
  destruct (isLeapYear_366_days (P := UTC_host)
              (mkDate (Date_UTC 2016 3 5 0 0 0 0)) 1459814400000 2016) as [Hleap _].
  - split; [reflexivity | vm_compute; discriminate].
  - split; vm_compute; [discriminate | reflexivity].
  - apply Hleap. reflexivity.
Defined.

(** A date-time the example host reads, and the Date both parsers return. *)
Lemma parsers_return_dates_in_range_example :
  parseDataFromIso8601 (P := UTC_host) (VString "2016-01-19T08:07:37Z")
  = Normal (mkDate (Num 1453190857000)) /\
  parseDataFromIso8601 (P := UTC_host) (VDate (mkDate (Num 1453190857000)))
  = Normal (mkDate (Num 1453190857000)).
Proof.
  destruct (parsers_return_dates_in_range (P := UTC_host)
              (VString "2016-01-19T08:07:37Z") (mkDate (Num 1453190857000)))
    as (H1 & _ & _ & H2).
  - reflexivity.
  - split; [exact H1 | exact H2].
Defined.

(** 15:00 UTC on the example host is 03:00 twelve hours later. *)
Lemma angleBetweenClockHands_half_day_1500 :
  angleBetweenClockHands (P := UTC_host) (VDate (mkDate (Date_UTC 2016 3 5 15 0 0 0)))
  = angleBetweenClockHands (P := UTC_host) (VDate (mkDate (Date_UTC 2016 3 5 3 0 0 0))).
Proof.
  destruct (angleBetweenClockHands_half_day (P := UTC_host)
              (mkDate (Date_UTC 2016 3 5 3 0 0 0)) (mkDate (Date_UTC 2016 3 5 15 0 0 0))
              1459825200000) as [H _].
  - split; [reflexivity | vm_compute; discriminate].
  - split; [reflexivity | vm_compute; discriminate].
  - split; vm_compute; [discriminate | reflexivity].
  - exact H.
Defined.

(** 03:16:00.000 and 03:16:59.999 UTC on the example host. *)
Lemma angleBetweenClockHands_same_minute_0316 :
  angleBetweenClockHands (P := UTC_host) (VDate (mkDate (Date_UTC 2016 3 5 3 16 0 0)))
  = angleBetweenClockHands (P := UTC_host) (VDate (mkDate (Date_UTC 2016 3 5 3 16 59 999))).
Proof.
  apply (angleBetweenClockHands_same_minute (P := UTC_host) _ _ 1459826160000 1459826219999).
  - split; [reflexivity | vm_compute; discriminate].
  - split; [reflexivity | vm_compute; discriminate].
  - reflexivity.
Defined.

(** 03:16 UTC on the example host: [result] is -2, half of -4. *)
Lemma clock_result_exact_0316 :
  clock_result (P := UTC_host) (VDate (mkDate (Date_UTC 2016 3 5 3 16 0 0)))
  = Normal (binary64 (Num (-4)) / 2)%float.
Proof.
  destruct (clock_result_exact (P := UTC_host)
              (mkDate (Date_UTC 2016 3 5 3 16 0 0)) 1459826160000) as [H _].
  - split; [reflexivity | vm_compute; discriminate].
  - exact H.
Defined.

(** Text the example host does not recognise. *)
Lemma angleBetweenClockHands_invalid_text :
  angleBetweenClockHands (P := UTC_host) (VString "not a date") = Normal PrimFloat.nan.
Proof.
  apply (angleBetweenClockHands_invalid (P := UTC_host) (VString "not a date") Invalid_Date);
    reflexivity.
Defined.
